(** * Jarvis backend: the AI service with its echo fallback

    A shallow embedding of [backend/services/ai_service.py]: the personality
    configuration loader, the assembly of the system prompt, the availability
    probe, response generation with its echo fallback, and the status report.

    The service is Python, so the embedding keeps what Python does at run
    time: values read from [jarvis_personality.json] and from the Ollama
    client are untyped JSON values, [dict.get] on something that is not a
    dict raises, [if x:] is Python truthiness, and [try]/[except] is a
    combinator of a small state-and-exception monad.  Everything outside
    the process (the file system, HTTP, the Ollama client, the clock) is an
    [environment] of oracles, and each call to it is recorded in a trace. *)

From Stdlib Require Import String Ascii List ZArith Bool Lia DecimalString.
Import ListNotations.
Open Scope string_scope.

(** ** Python values *)

Set Warnings "-register-all".

(** What [json.load] can produce, and what the Ollama client hands back.
    A dict keeps its entries in insertion order; a key is looked up at its
    first entry.  A float is kept by the only two things this program can
    observe of it: its truth value and its [str()]. *)
Inductive json : Type :=
| JNull
| JBool (b : bool)
| JInt (z : Z)
| JFloat (nonzero : bool) (shown : string)
| JStr (s : string)
| JList (items : list json)
| JDict (entries : list (string * json)).

(** The exceptions the service can meet.  [Failure] is anything raised by
    code outside the service (file system, JSON parser, HTTP, Ollama). *)
Inductive exn : Type :=
| AttributeError
| KeyError (key : string)
| TypeError
| Failure (what : string).

Inductive result (A : Type) : Type :=
| Ok (a : A)
| Raise (e : exn).
Arguments Ok {A} a.
Arguments Raise {A} e.

Module Py.

Fixpoint assoc (k : string) (kvs : list (string * json)) : option json :=
  match kvs with
  | [] => None
  | (k', v) :: rest => if String.eqb k k' then Some v else assoc k rest
  end.

(** [d[k] = f(d[k])] on the entry that [assoc] finds; no entry, no change. *)
Fixpoint assoc_update (k : string) (f : json -> json)
         (kvs : list (string * json)) : list (string * json) :=
  match kvs with
  | [] => []
  | (k', v) :: rest =>
      if String.eqb k k' then (k', f v) :: rest
      else (k', v) :: assoc_update k f rest
  end.

(** [d[k] = v] on a dict: the entry is replaced in place, or added last. *)
Fixpoint assoc_set (k : string) (v : json) (kvs : list (string * json))
  : list (string * json) :=
  match kvs with
  | [] => [(k, v)]
  | (k', v') :: rest =>
      if String.eqb k k' then (k', v) :: rest
      else (k', v') :: assoc_set k v rest
  end.

Definition setitem (d : json) (k : string) (v : json) : result json :=
  match d with
  | JDict kvs => Ok (JDict (assoc_set k v kvs))
  | _ => Raise TypeError
  end.

(** [d.get(k, dflt)]: only a dict has [get]. *)
Definition get (d : json) (k : string) (dflt : json) : result json :=
  match d with
  | JDict kvs =>
      match assoc k kvs with
      | Some v => Ok v
      | None => Ok dflt
      end
  | _ => Raise AttributeError
  end.

(** [d[k]] with a text key. *)
Definition getitem (d : json) (k : string) : result json :=
  match d with
  | JDict kvs =>
      match assoc k kvs with
      | Some v => Ok v
      | None => Raise (KeyError k)
      end
  | _ => Raise TypeError
  end.

(** [bool(v)]. *)
Definition truthy (v : json) : bool :=
  match v with
  | JNull => false
  | JBool b => b
  | JInt z => negb (Z.eqb z 0)
  | JFloat nonzero _ => nonzero
  | JStr s => negb (String.eqb s EmptyString)
  | JList items => match items with [] => false | _ => true end
  | JDict entries => match entries with [] => false | _ => true end
  end.

(** The characters of a text, each as a text of length one. *)
Fixpoint chars (s : string) : list json :=
  match s with
  | EmptyString => []
  | String c rest => JStr (String c EmptyString) :: chars rest
  end.

(** [for x in v]: the items of a list, the keys of a dict, the characters
    of a text. *)
Definition iter (v : json) : result (list json) :=
  match v with
  | JList items => Ok items
  | JDict entries => Ok (map (fun kv => JStr (fst kv)) entries)
  | JStr s => Ok (chars s)
  | _ => Raise TypeError
  end.

Fixpoint map_result {A B : Type} (f : A -> result B) (l : list A)
  : result (list B) :=
  match l with
  | [] => Ok []
  | x :: rest =>
      match f x with
      | Raise e => Raise e
      | Ok y =>
          match map_result f rest with
          | Raise e => Raise e
          | Ok ys => Ok (y :: ys)
          end
      end
  end.

Section Str.
(** [repr] of a text (quoting and escaping) is Python's own. *)
Variable repr_str : string -> string.

Fixpoint repr (v : json) : string :=
  match v with
  | JNull => "None"
  | JBool true => "True"
  | JBool false => "False"
  | JInt z => NilZero.string_of_int (Z.to_int z)
  | JFloat _ shown => shown
  | JStr s => repr_str s
  | JList items => "[" ++ String.concat ", " (map repr items) ++ "]"
  | JDict entries =>
      "{" ++ String.concat ", "
               (map (fun kv => match kv with
                               | (k, x) => repr_str k ++ ": " ++ repr x
                               end) entries) ++ "}"
  end.

(** [str(v)], which is what an f-string [{v}] inserts. *)
Definition str (v : json) : string :=
  match v with
  | JStr s => s
  | _ => repr v
  end.
End Str.

End Py.


(** ** The service object and the world around it *)

(** [ollama.Client(host=...)]: the handle only remembers where it points. *)
Record Client : Type := { host : string }.

(** The attributes of [AIService].  [client = None] is Python's [None]. *)
Record AIService : Type := {
  model : string;
  ollama_url : string;
  client : option Client;
  personality_config : json
}.

Inductive level : Type := INFO | WARNING | ERROR.

(** What the process does to the outside, in the order it does it.  A log
    record of an f-string ending in [{e}] keeps the exception itself. *)
Inductive event : Type :=
| EvExists (path : string)
| EvOpen (path : string)
| EvHttpGet (url : string)
| EvNewClient (url : string)
| EvList (c : Client)
| EvChat (c : Client) (mdl : string) (messages : json)
| EvNow
| EvLog (lvl : level) (text : string) (err : option exn).

(** The outside world.  Every oracle is asked with the number of events
    that happened before, so the same call can answer differently later. *)
Record environment : Type := {
  os_path_exists : nat -> string -> bool;
  open_read : nat -> string -> result string;
  httpx_get : nat -> string -> result Z;
  ollama_Client : nat -> string -> option exn;
  client_list : nat -> Client -> result json;
  client_chat : nat -> Client -> string -> json -> result json;
  datetime_now_isoformat : nat -> string
}.

(** The running program: the service object and the trace so far. *)
Record pystate : Type := { self : AIService; trace : list event }.

(** A method body: it returns or raises, and leaves a new state. *)
Definition Py (A : Type) : Type := pystate -> result A * pystate.

Definition ret {A : Type} (a : A) : Py A := fun s => (Ok a, s).

Definition raise {A : Type} (e : exn) : Py A := fun s => (Raise e, s).

Definition bind {A B : Type} (m : Py A) (f : A -> Py B) : Py B :=
  fun s =>
    match m s with
    | (Ok a, s') => f a s'
    | (Raise e, s') => (Raise e, s')
    end.

(** [try: body / except Exception as e: handler(e)]. *)
Definition try_except {A : Type} (body : Py A) (handler : exn -> Py A) : Py A :=
  fun s =>
    match body s with
    | (Ok a, s') => (Ok a, s')
    | (Raise e, s') => handler e s'
    end.

Definition lift {A : Type} (r : result A) : Py A := fun s => (r, s).

Declare Scope py_scope.
Delimit Scope py_scope with py.
Notation "x <- m ;; k" := (bind m (fun x => k))
  (at level 100, m at next level, right associativity) : py_scope.
Notation "m ;;; k" := (bind m (fun _ => k))
  (at level 100, right associativity) : py_scope.
Open Scope py_scope.

Definition get_self : Py AIService := fun s => (Ok (self s), s).

Definition set_client (c : option Client) : Py unit :=
  fun s =>
    (Ok tt,
     {| self := {| model := model (self s);
                   ollama_url := ollama_url (self s);
                   client := c;
                   personality_config := personality_config (self s) |};
        trace := trace s |}).

Definition set_personality_config (cfg : json) : Py unit :=
  fun s =>
    (Ok tt,
     {| self := {| model := model (self s);
                   ollama_url := ollama_url (self s);
                   client := client (self s);
                   personality_config := cfg |};
        trace := trace s |}).

(** One call to the outside: the oracle answers for the present moment and
    the call joins the trace. *)
Definition external {A : Type} (ev : event) (oracle : nat -> A) : Py A :=
  fun s =>
    (Ok (oracle (length (trace s))),
     {| self := self s; trace := trace s ++ [ev] |}).

Definition external_call {A : Type} (ev : event) (oracle : nat -> result A)
  : Py A :=
  r <- external ev oracle ;; lift r.

Definition logger (lvl : level) (text : string) (err : option exn) : Py unit :=
  external (EvLog lvl text err) (fun _ => tt).


(** ** The service *)

Section Service.

(** Python's [repr] of a text and the parser behind [json.load] belong to
    Python; [world] is the environment the process runs in. *)
Variable repr_str : string -> string.
Variable json_loads : string -> result json.
Variable world : environment.

Local Abbreviation py_str := (Py.str repr_str).

Definition os_path_exists_ (path : string) : Py bool :=
  external (EvExists path) (fun t => os_path_exists world t path).

(** [with open(path, 'r', encoding='utf-8') as f: json.load(f)]. *)
Definition open_json_load (path : string) : Py json :=
  text <- external_call (EvOpen path) (fun t => open_read world t path) ;;
  lift (json_loads text).

(** [_get_default_personality]: the configuration used when no file is
    usable. *)
Definition _get_default_personality : json :=
  JDict [
    ("identity", JDict [
       ("name", JStr "Jarvis");
       ("display_name", JStr "J.A.R.V.I.S.");
       ("role", JStr "AI Assistant")]);
    ("personality", JDict [
       ("base_personality",
        JStr "You are Jarvis, an AI assistant inspired by Tony Stark's AI. Be helpful, intelligent, and slightly witty.")])
  ].

(** [_load_personality_config]: the three candidates are tried in order by
    [if]/[elif]; the whole search sits in one [try]. *)
Definition _load_personality_config : Py json :=
  let config_path := "../../jarvis_personality.json" in
  let fallback_config_path := "../jarvis_personality.json" in
  let fallback_config_path2 := "jarvis_personality.json" in
  try_except
    (found <- os_path_exists_ config_path ;;
     if found then
       config <- open_json_load config_path ;;
       logger INFO "Loaded personality config from ../../jarvis_personality.json" None ;;;
       ret config
     else
       found <- os_path_exists_ fallback_config_path ;;
       if found then
         config <- open_json_load fallback_config_path ;;
         logger INFO "Loaded personality config from ../jarvis_personality.json" None ;;;
         ret config
       else
         found <- os_path_exists_ fallback_config_path2 ;;
         if found then
           config <- open_json_load fallback_config_path2 ;;
           logger INFO "Loaded personality config from jarvis_personality.json" None ;;;
           ret config
         else
           logger WARNING "Personality config file not found, using defaults" None ;;;
           ret _get_default_personality)
    (fun e =>
       logger ERROR "Failed to load personality config: " (Some e) ;;;
       ret _get_default_personality).

(** [config["personality"]["base_personality"] = v], on the entries that the
    lookups find. *)
Definition store_base_personality (v : json) (config : json) : json :=
  match config with
  | JDict kvs =>
      JDict (Py.assoc_update "personality"
               (fun p =>
                  match p with
                  | JDict fields =>
                      JDict (Py.assoc_update "base_personality" (fun _ => v) fields)
                  | _ => p
                  end) kvs)
  | _ => config
  end.

(** [system_prompt += clause].  On a text it builds a new text.  On a list
    it is [list.extend]: the list is extended in place with the characters
    of the clause, and the only list [system_prompt] can be is the one
    stored at [personality.base_personality], so the configuration changes
    with it.  Anything else has no [+] with a text. *)
Definition iadd (system_prompt : json) (clause : string) : Py json :=
  match system_prompt with
  | JStr s => ret (JStr (s ++ clause))
  | JList items =>
      let extended := JList (items ++ Py.chars clause) in
      s <- get_self ;;
      set_personality_config
        (store_base_personality extended (personality_config s)) ;;;
      ret extended
  | _ => raise TypeError
  end.

(** The statement that [_get_system_prompt] repeats for each trait:
    [if d.get(key): system_prompt += f"{before}{d[key]}{after}"]. *)
Definition append_trait (d : json) (key before after : string)
           (system_prompt : json) : Py json :=
  v <- lift (Py.get d key JNull) ;;
  if Py.truthy v then
    x <- lift (Py.getitem d key) ;;
    iadd system_prompt (before ++ py_str x ++ after)
  else ret system_prompt.

(** [_get_system_prompt]. *)
Definition _get_system_prompt : Py json :=
  s <- get_self ;;
  let config := personality_config s in
  section <- lift (Py.get config "personality" (JDict [])) ;;
  system_prompt <- lift (Py.get section "base_personality"
                           (JStr "You are Jarvis, an AI assistant. Be helpful and intelligent.")) ;;
  personality <- lift (Py.get config "personality" (JDict [])) ;;
  system_prompt <- append_trait personality "tone"
                     " Your tone should be " "." system_prompt ;;
  system_prompt <- append_trait personality "humor_level"
                     " Use " "." system_prompt ;;
  system_prompt <- append_trait personality "confidence"
                     " Be " "." system_prompt ;;
  behavior <- lift (Py.get config "behavior" (JDict [])) ;;
  system_prompt <- append_trait behavior "response_style"
                     " Keep responses " "." system_prompt ;;
  system_prompt <- append_trait behavior "problem_solving"
                     " Approach problems in an " " way." system_prompt ;;
  interaction <- lift (Py.get config "interaction_style" (JDict [])) ;;
  system_prompt <- append_trait interaction "explanation_method"
                     " When explaining complex topics, " "." system_prompt ;;
  ret system_prompt.

(** [self.personality_config.get("identity", {}).get("name", dflt)]. *)
Definition identity_field (field : string) (dflt : string) : Py json :=
  s <- get_self ;;
  identity <- lift (Py.get (personality_config s) "identity" (JDict [])) ;;
  lift (Py.get identity field (JStr dflt)).

(** [_initialize_client]. *)
Definition _initialize_client : Py unit :=
  try_except
    (s <- get_self ;;
     let url := ollama_url s ++ "/api/tags" in
     status_code <- external_call (EvHttpGet url)
                      (fun t => httpx_get world t url) ;;
     if Z.eqb status_code 200 then
       failed <- external (EvNewClient (ollama_url s))
                   (fun t => ollama_Client world t (ollama_url s)) ;;
       match failed with
       | Some e => raise e
       | None =>
           set_client (Some {| host := ollama_url s |}) ;;;
           name <- identity_field "name" "Unknown" ;;
           logger INFO
             ("Ollama client initialized successfully with personality: "
                ++ py_str name) None
       end
     else
       logger WARNING ("Ollama not available at " ++ ollama_url s) None)
    (fun e =>
       logger WARNING "Failed to initialize Ollama client: " (Some e) ;;;
       set_client None).

(** [__init__(model, ollama_url)], run on the trace so far. *)
Definition init (model_ ollama_url_ : string) (before : list event)
  : result unit * pystate :=
  (config <- _load_personality_config ;;
   set_personality_config config ;;;
   _initialize_client)
    {| self := {| model := model_; ollama_url := ollama_url_;
                  client := None; personality_config := JNull |};
       trace := before |}.

(** [is_available]. *)
Definition is_available : Py bool :=
  s <- get_self ;;
  match client s with
  | None => ret false
  | Some c =>
      try_except
        (response <- external_call (EvList c)
                       (fun t => client_list world t c) ;;
         ret true)
        (fun e =>
           logger WARNING "AI service not available: " (Some e) ;;;
           ret false)
  end.

(** The [try] block of [_generate_ai_response]: build the prompt, send the
    two messages, read [response['message']['content']]. *)
Definition ai_attempt (message : string) : Py json :=
  system_prompt <- _get_system_prompt ;;
  s <- get_self ;;
  let messages :=
    JList [ JDict [("role", JStr "system"); ("content", system_prompt)];
            JDict [("role", JStr "user"); ("content", JStr message)] ] in
  response <-
    match client s with
    | None => raise AttributeError
    | Some c =>
        external_call (EvChat c (model s) messages)
          (fun t => client_chat world t c (model s) messages)
    end ;;
  msg <- lift (Py.getitem response "message") ;;
  lift (Py.getitem msg "content").

(** [_generate_ai_response]: any exception of the block becomes [None]. *)
Definition _generate_ai_response (message : string) : Py json :=
  try_except
    (ai_attempt message)
    (fun e =>
       logger ERROR "Ollama generation error: " (Some e) ;;;
       ret JNull).

Definition now : Py string :=
  external EvNow (fun t => datetime_now_isoformat world t).

(** [generate_response].  The [try] block either returns the AI result
    ([Some]) or falls out of the [if] ([None]); then comes the echo. *)
Definition generate_response (message : string) : Py json :=
  s <- get_self ;;
  returned <-
    match client s with
    | Some _ =>
        try_except
          (ai_response <- _generate_ai_response message ;;
           if Py.truthy ai_response then
             s <- get_self ;;
             name <- identity_field "name" "AI" ;;
             timestamp <- now ;;
             ret (Some (JDict [
               ("response", ai_response);
               ("mode", JStr "ai");
               ("model", JStr (model s));
               ("personality", name);
               ("timestamp", JStr timestamp)]))
           else ret None)
          (fun e =>
             logger ERROR "AI generation failed: " (Some e) ;;;
             ret None)
    | None => ret None
    end ;;
  match returned with
  | Some result => ret result
  | None =>
      name <- identity_field "name" "Assistant" ;;
      timestamp <- now ;;
      ret (JDict [
        ("response", JStr ("Echo from " ++ py_str name ++ ": " ++ message));
        ("mode", JStr "echo");
        ("model", JStr "fallback");
        ("personality", name);
        ("timestamp", JStr timestamp)])
  end.

(** [[model['name'] for model in models.get('models', [])]]. *)
Definition model_names (models : json) : result (list json) :=
  match Py.get models "models" (JList []) with
  | Raise e => Raise e
  | Ok listed =>
      match Py.iter listed with
      | Raise e => Raise e
      | Ok items => Py.map_result (fun m => Py.getitem m "name") items
      end
  end.

(** [get_status]. *)
Definition get_status : Py json :=
  available <- is_available ;;
  s <- get_self ;;
  name <- identity_field "name" "Unknown" ;;
  display_name <- identity_field "display_name" "AI Assistant" ;;
  let config_loaded :=
    match personality_config s with JNull => false | _ => true end in
  let status :=
    JDict [
      ("ai_available", JBool available);
      ("model", JStr (if available then model s else "unavailable"));
      ("mode", JStr (if available then "ai" else "echo"));
      ("ollama_url", JStr (ollama_url s));
      ("personality", JDict [
         ("name", name);
         ("display_name", display_name);
         ("config_loaded", JBool config_loaded)])] in
  match available, client s with
  | true, Some c =>
      try_except
        (models <- external_call (EvList c)
                     (fun t => client_list world t c) ;;
         names <- lift (model_names models) ;;
         lift (Py.setitem status "available_models" (JList names)))
        (fun _ => ret status)
  | _, _ => ret status
  end.

End Service.


(** ** Reading a configuration *)

(** [config.get("identity", {})], the lookup every name starts with. *)
Definition identity_section (cfg : json) : result json :=
  Py.get cfg "identity" (JDict []).

(** The configuration is a dict and its identity section, when there is
    one, is a dict too: exactly when the name lookups do not raise. *)
Definition identity_readable (cfg : json) : bool :=
  match identity_section cfg with
  | Ok (JDict _) => true
  | _ => false
  end.

(** The value of [identity.field], or the default written at the lookup. *)
Definition configured (cfg : json) (field dflt : string) : json :=
  match identity_section cfg with
  | Ok (JDict fields) =>
      match Py.assoc field fields with
      | Some v => v
      | None => JStr dflt
      end
  | _ => JStr dflt
  end.

(** The entries of a section; none when the section is missing. *)
Definition section_of (cfg : json) (name : string) : list (string * json) :=
  match cfg with
  | JDict kvs =>
      match Py.assoc name kvs with
      | Some (JDict fields) => fields
      | _ => []
      end
  | _ => []
  end.

(** A text field of a section. *)
Definition trait (cfg : json) (section field : string) : option string :=
  match Py.assoc field (section_of cfg section) with
  | Some (JStr s) => Some s
  | _ => None
  end.

Definition text_fields (fields : list string) (section : option json) : bool :=
  match section with
  | None => true
  | Some (JDict entries) =>
      forallb (fun k => match Py.assoc k entries with
                        | None | Some (JStr _) => true
                        | Some _ => false
                        end) fields
  | Some _ => false
  end.

(** The PersonalityConfig of the data model: a mapping whose recognised
    sections, when present, are mappings and whose recognised fields, when
    present, are text. *)
Definition is_personality_config (cfg : json) : bool :=
  match cfg with
  | JDict kvs =>
      text_fields ["name"; "display_name"; "role"] (Py.assoc "identity" kvs)
      && text_fields ["base_personality"; "tone"; "humor_level"; "confidence"]
           (Py.assoc "personality" kvs)
      && text_fields ["response_style"; "problem_solving"]
           (Py.assoc "behavior" kvs)
      && text_fields ["explanation_method"] (Py.assoc "interaction_style" kvs)
  | _ => false
  end.

(** [personality.base_personality] is a list: the one shape of value on
    which [+=] works in place. *)
Definition base_is_list (cfg : json) : bool :=
  match Py.assoc "base_personality" (section_of cfg "personality") with
  | Some (JList _) => true
  | _ => false
  end.

(** The system prompt as the specification words it: one clause per trait
    that is present and not empty, in the fixed order. *)
Definition clause (before after : string) (value : option string) : string :=
  match value with
  | Some s =>
      if String.eqb s EmptyString then EmptyString
      else " " ++ before ++ s ++ after
  | None => EmptyString
  end.

Definition expected_prompt (cfg : json) : string :=
  match trait cfg "personality" "base_personality" with
  | Some base => base
  | None => "You are Jarvis, an AI assistant. Be helpful and intelligent."
  end
  ++ clause "Your tone should be " "." (trait cfg "personality" "tone")
  ++ clause "Use " "." (trait cfg "personality" "humor_level")
  ++ clause "Be " "." (trait cfg "personality" "confidence")
  ++ clause "Keep responses " "." (trait cfg "behavior" "response_style")
  ++ clause "Approach problems in an " " way."
       (trait cfg "behavior" "problem_solving")
  ++ clause "When explaining complex topics, " "."
       (trait cfg "interaction_style" "explanation_method").

(** ** Reading the loader's search *)

Definition candidates : list string :=
  ["../../jarvis_personality.json"; "../jarvis_personality.json";
   "jarvis_personality.json"].

(** The first candidate that [os.path.exists] accepts when the search
    starts at moment [t], with the moment at which it is then opened and
    the candidates that come after it. *)
Fixpoint first_existing (world : environment) (t : nat) (paths : list string)
  : option (string * nat * list string) :=
  match paths with
  | [] => None
  | p :: rest =>
      if os_path_exists world t p then Some (p, S t, rest)
      else first_existing world (S t) rest
  end.

(** What reading the chosen file gives: its parsed content, or the
    exception of [open] or of the parser. *)
Definition read_config (json_loads : string -> result json)
           (world : environment) (t : nat) (path : string) : result json :=
  match open_read world t path with
  | Ok text => json_loads text
  | Raise e => Raise e
  end.

(** ** Reading a status *)

(** The entries of the status that do not depend on the enumeration, for a
    configuration whose names can be looked up (it is then not [None], so
    "config_loaded" is true). *)
Definition status_fields (available : bool) (svc : AIService)
  : list (string * json) :=
  [ ("ai_available", JBool available);
    ("model", JStr (if available then model svc else "unavailable"));
    ("mode", JStr (if available then "ai" else "echo"));
    ("ollama_url", JStr (ollama_url svc));
    ("personality", JDict [
       ("name", configured (personality_config svc) "name" "Unknown");
       ("display_name",
        configured (personality_config svc) "display_name" "AI Assistant");
       ("config_loaded", JBool true)]) ].


(** The enumeration of [get_status] at moment [t]: list the models, take
    their names. *)
Definition enumeration (world : environment) (t : nat) (c : Client)
  : result (list json) :=
  match client_list world t c with
  | Ok models => model_names models
  | Raise e => Raise e
  end.

(** ** Reading a result *)

(** The dict that the echo branch of [generate_response] returns. *)
Definition echo_result (repr_str : string -> string) (name : json)
           (message timestamp : string) : json :=
  JDict [
    ("response",
     JStr ("Echo from " ++ Py.str repr_str name ++ ": " ++ message));
    ("mode", JStr "echo");
    ("model", JStr "fallback");
    ("personality", name);
    ("timestamp", JStr timestamp)].

(** The dict that its AI branch returns. *)
Definition ai_result (content : json) (model_ : string) (name : json)
           (timestamp : string) : json :=
  JDict [
    ("response", content);
    ("mode", JStr "ai");
    ("model", JStr model_);
    ("personality", name);
    ("timestamp", JStr timestamp)].

(** The personality field of the result is [identity.display_name]. *)
Definition carries_display_name (repr_str : string -> string)
           (world : environment) (message : string) (s : pystate) : Prop :=
  exists entries s',
    generate_response repr_str world message s = (Ok (JDict entries), s')
    /\ Py.assoc "personality" entries
       = Py.assoc "display_name"
           (section_of (personality_config (self s)) "identity").

(** The Ollama client answers a chat with text, or with no content. *)
Definition chat_content_is_text (world : environment) : Prop :=
  forall t c mdl messages reply msg content,
    client_chat world t c mdl messages = Ok reply ->
    Py.getitem reply "message" = Ok msg ->
    Py.getitem msg "content" = Ok content ->
    content = JNull \/ exists text, content = JStr text.


(** ** Reading what a method leaves of the service object *)

(** [I] is what is known of the service before a step, [R] what the step
    may do to it. *)
Definition stable (I : AIService -> Prop) (R : AIService -> AIService -> Prop)
           {A : Type} (m : Py A) : Prop :=
  forall s, I (self s) ->
            R (self s) (self (snd (m s))) /\ I (self (snd (m s))).

Definition anything (svc : AIService) : Prop := True.

(** What every request leaves alone, whatever the configuration holds: the
    model, the endpoint, the client handle and the identity section. *)
Definition same_identity (a b : AIService) : Prop :=
  model b = model a
  /\ ollama_url b = ollama_url a
  /\ client b = client a
  /\ identity_section (personality_config b)
     = identity_section (personality_config a).

(** [personality.base_personality] is no list. *)
Definition base_no_list (svc : AIService) : Prop :=
  base_is_list (personality_config svc) = false.

Definition is_list (v : json) : bool :=
  match v with
  | JList _ => true
  | _ => false
  end.

(** The configuration of last resort is a PersonalityConfig named Jarvis. *)
Definition defaulted (cfg : json) : Prop :=
  cfg = _get_default_personality
  /\ is_personality_config cfg = true
  /\ trait cfg "identity" "name" = Some "Jarvis"
  /\ trait cfg "personality" "base_personality"
     = Some "You are Jarvis, an AI assistant inspired by Tony Stark's AI. Be helpful, intelligent, and slightly witty.".

(** ** Sample worlds *)

Definition quoted (s : string) : string := "'" ++ s ++ "'".

(** A parser that knows two documents. *)
Definition loads_sample (text : string) : result json :=
  if String.eqb text "{}" then Ok (JDict [])
  else if String.eqb text "[]" then Ok (JList [])
       else Raise (Failure "JSONDecodeError").

(** Nothing is reachable and no configuration file exists. *)
Definition offline : environment := {|
  os_path_exists := fun _ _ => false;
  open_read := fun _ _ => Raise (Failure "FileNotFoundError");
  httpx_get := fun _ _ => Raise (Failure "ConnectError");
  ollama_Client := fun _ _ => None;
  client_list := fun _ _ => Raise (Failure "ConnectError");
  client_chat := fun _ _ _ _ => Raise (Failure "ConnectError");
  datetime_now_isoformat := fun _ => "2025-06-01T12:00:00"
|}.

(** Ollama answers: one model is installed and every chat is answered with
    [content]. *)
Definition online (content : json) : environment := {|
  os_path_exists := fun _ _ => false;
  open_read := fun _ _ => Raise (Failure "FileNotFoundError");
  httpx_get := fun _ _ => Ok 200%Z;
  ollama_Client := fun _ _ => None;
  client_list := fun _ _ =>
    Ok (JDict [("models", JList [JDict [("name", JStr "llama3.1:8b")]])]);
  client_chat := fun _ _ _ _ =>
    Ok (JDict [("message", JDict [("role", JStr "assistant");
                                  ("content", content)])]);
  datetime_now_isoformat := fun _ => "2025-06-01T12:00:00"
|}.

(** Ollama answers the probe of [is_available] and then fails. *)
Definition flaky : environment := {|
  os_path_exists := fun _ _ => false;
  open_read := fun _ _ => Raise (Failure "FileNotFoundError");
  httpx_get := fun _ _ => Ok 200%Z;
  ollama_Client := fun _ _ => None;
  client_list := fun t _ =>
    match t with
    | O => Ok (JDict [])
    | S _ => Raise (Failure "ReadTimeout")
    end;
  client_chat := fun _ _ _ _ => Raise (Failure "ReadTimeout");
  datetime_now_isoformat := fun _ => "2025-06-01T12:00:00"
|}.

(** No file at the project root, a truncated file in [backend/], a good
    file in the current directory. *)
Definition broken_then_good : environment := {|
  os_path_exists := fun _ p =>
    String.eqb p "../jarvis_personality.json"
    || String.eqb p "jarvis_personality.json";
  open_read := fun _ p =>
    if String.eqb p "../jarvis_personality.json" then Ok "{" else Ok "{}";
  httpx_get := fun _ _ => Raise (Failure "ConnectError");
  ollama_Client := fun _ _ => None;
  client_list := fun _ _ => Raise (Failure "ConnectError");
  client_chat := fun _ _ _ _ => Raise (Failure "ConnectError");
  datetime_now_isoformat := fun _ => "2025-06-01T12:00:00"
|}.

Definition local_client : Client := {| host := "http://localhost:11434" |}.

(** A constructed service holding [cfg] and [c], before any request. *)
Definition service_with (cfg : json) (c : option Client) : pystate :=
  {| self := {| model := "llama3.1:8b";
                ollama_url := "http://localhost:11434";
                client := c;
                personality_config := cfg |};
     trace := [] |}.

(** A configuration without [identity.name]. *)
Definition nameless : json :=
  JDict [("identity", JDict [("role", JStr "AI Assistant")]);
         ("personality", JDict [("tone", JStr "dry")])].

(** A configuration that spells its base personality as a list of lines. *)
Definition base_as_lines : json :=
  JDict [("personality",
          JDict [("base_personality", JList [JStr "You are Jarvis."]);
                 ("tone", JStr "dry")])].

(** A configuration with a tone, an empty humor level and a way of solving
    problems. *)
Definition styled : json :=
  JDict [("identity", JDict [("name", JStr "Jarvis");
                             ("display_name", JStr "J.A.R.V.I.S.")]);
         ("personality", JDict [("base_personality", JStr "You are Jarvis.");
                                ("tone", JStr "dry");
                                ("humor_level", JStr EmptyString)]);
         ("behavior", JDict [("problem_solving", JStr "analytical")])].

Definition offline_service : pystate :=
  service_with _get_default_personality None.

Definition nameless_service : pystate :=
  service_with nameless (Some local_client).

Definition styled_service : pystate :=
  service_with styled (Some local_client).


(** ** The HTTP handlers *)

(** [backend/api/main.py].  The handlers run on the one service object of
    the process, [ai_service], which is the [self] of the state. *)
Module Main.

Section Handlers.

(** [pydantic_str] is what pydantic makes of a value given for a [str]
    field: the text it keeps, or nothing when it refuses the value. *)
Variable repr_str : string -> string.
Variable pydantic_str : json -> option string.
Variable world : environment.

(** [ChatResponse(response=..., mode=..., model=..., timestamp=...)]. *)
Definition ChatResponse (response mode model_ timestamp : json)
  : result json :=
  match pydantic_str response, pydantic_str mode,
        pydantic_str model_, pydantic_str timestamp with
  | Some r, Some m, Some d, Some t =>
      Ok (JDict [("response", JStr r); ("mode", JStr m);
                 ("model", JStr d); ("timestamp", JStr t)])
  | _, _, _, _ => Raise (Failure "ValidationError")
  end.

(** [GET /]. *)
Definition root : Py json :=
  ret (JDict [
    ("message", JStr "Jarvis AI Assistant Backend");
    ("status", JStr "running");
    ("version", JStr "1.1.0");
    ("features",
     JList [JStr "chat"; JStr "ai_integration"; JStr "fallback_mode"]);
    ("docs", JStr "/docs")]).

(** [GET /api/health]. *)
Definition health_check : Py json :=
  ai_status <- get_status world ;;
  timestamp <- now world ;;
  ret (JDict [
    ("status", JStr "healthy");
    ("service", JStr "jarvis-backend");
    ("version", JStr "1.1.0");
    ("ai_integration", ai_status);
    ("timestamp", JStr timestamp)]).

(** [POST /api/chat], on the [content] of the validated [ChatMessage]. *)
Definition chat (content : string) : Py json :=
  logger INFO ("Chat request: " ++ content) None ;;;
  result <- generate_response repr_str world content ;;
  response <- lift (Py.getitem result "response") ;;
  mode <- lift (Py.getitem result "mode") ;;
  model_ <- lift (Py.getitem result "model") ;;
  timestamp <- lift (Py.getitem result "timestamp") ;;
  lift (ChatResponse response mode model_ timestamp).

(** [GET /api/ai/status]. *)
Definition ai_status : Py json := get_status world.

(** [GET /api/ai/test]. *)
Definition test_ai : Py json :=
  available <- is_available world ;;
  if available then
    test_result <-
      generate_response repr_str world "Hello, are you working?" ;;
    ret (JDict [
      ("ai_available", JBool true);
      ("test_successful", JBool true);
      ("test_response", test_result)])
  else
    ret (JDict [
      ("ai_available", JBool false);
      ("test_successful", JBool false);
      ("message", JStr "AI service not available - using fallback mode")]).

(** [GET /api/status]; it comes last here because it takes the name of the
    service method it calls. *)
Definition get_status : Py json :=
  ai_status <- get_status world ;;
  available <- lift (Py.getitem ai_status "ai_available") ;;
  ret (JDict [
    ("backend", JStr "running");
    ("version", JStr "1.1.0");
    ("ai_service", ai_status);
    ("features", JDict [
       ("chat", JBool true);
       ("ai_integration", available);
       ("fallback_mode", JBool true);
       ("health_check", JBool true)])]).

End Handlers.

End Main.

(** ** Reading a construction *)

(** The conditions under which [_initialize_client], started at moment [t],
    leaves a client handle: the tags answer with 200, the client can be
    built, and the name for the log line can be looked up. *)
Definition handle_obtained (world : environment) (t : nat) (svc : AIService)
  : bool :=
  match httpx_get world t (ollama_url svc ++ "/api/tags") with
  | Ok status_code =>
      Z.eqb status_code 200
      && match ollama_Client world (S t) (ollama_url svc) with
         | None => true
         | Some _ => false
         end
      && identity_readable (personality_config svc)
  | Raise _ => false
  end.

(** The states of a running process: the service is constructed, then
    requests are handled one after the other. *)
Inductive serving (repr_str : string -> string)
          (json_loads : string -> result json)
          (pydantic_str : json -> option string) (world : environment)
          (model_ url : string) : pystate -> Prop :=
| serving_constructed (before : list event) :
    serving repr_str json_loads pydantic_str world model_ url
      (snd (init repr_str json_loads world model_ url before))
| serving_root (s : pystate) :
    serving repr_str json_loads pydantic_str world model_ url s ->
    serving repr_str json_loads pydantic_str world model_ url
      (snd (Main.root s))
| serving_health_check (s : pystate) :
    serving repr_str json_loads pydantic_str world model_ url s ->
    serving repr_str json_loads pydantic_str world model_ url
      (snd (Main.health_check world s))
| serving_chat (s : pystate) (content : string) :
    serving repr_str json_loads pydantic_str world model_ url s ->
    serving repr_str json_loads pydantic_str world model_ url
      (snd (Main.chat repr_str pydantic_str world content s))
| serving_status (s : pystate) :
    serving repr_str json_loads pydantic_str world model_ url s ->
    serving repr_str json_loads pydantic_str world model_ url
      (snd (Main.get_status world s))
| serving_ai_status (s : pystate) :
    serving repr_str json_loads pydantic_str world model_ url s ->
    serving repr_str json_loads pydantic_str world model_ url
      (snd (Main.ai_status world s))
| serving_test_ai (s : pystate) :
    serving repr_str json_loads pydantic_str world model_ url s ->
    serving repr_str json_loads pydantic_str world model_ url
      (snd (Main.test_ai repr_str world s)).

(** What a running process keeps of its service: the model and the endpoint
    it was constructed with, and either no client handle or a handle for
    that endpoint together with an identity section that can be read. *)
Definition well_served (model_ url : string) (svc : AIService) : Prop :=
  model svc = model_
  /\ ollama_url svc = url
  /\ (client svc = None
      \/ (client svc = Some {| host := url |}
          /\ identity_readable (personality_config svc) = true)).

(** ** Reading a trace *)

(** A step that makes no call to the outside and writes no log. *)
Definition quiet {A : Type} (m : Py A) : Prop :=
  forall s, trace (snd (m s)) = trace s.

(** The chat call of [generate_response]: the system prompt, then the
    message of the user. *)
Definition chat_call (c : Client) (svc : AIService) (prompt : json)
           (message : string) : event :=
  EvChat c (model svc)
    (JList [ JDict [("role", JStr "system"); ("content", prompt)];
             JDict [("role", JStr "user"); ("content", JStr message)] ]).

(** The messages of that call. *)
Definition chat_messages (prompt : json) (message : string) : json :=
  JList [ JDict [("role", JStr "system"); ("content", prompt)];
          JDict [("role", JStr "user"); ("content", JStr message)] ].

(** [response['message']['content']] on what the chat call gave. *)
Definition reply_content (answer : result json) : result json :=
  match answer with
  | Raise e => Raise e
  | Ok reply =>
      match Py.getitem reply "message" with
      | Raise e => Raise e
      | Ok msg => Py.getitem msg "content"
      end
  end.

(** ** More sample worlds *)

(** The double quote, and a text between double quotes. *)
Definition dq : string := String "034"%char EmptyString.

Definition in_quotes (s : string) : string := dq ++ s ++ dq.

(** The text of a configuration file that writes its base personality as a
    list of lines and sets a tone. *)
Definition lines_document : string :=
  "{" ++ in_quotes "personality" ++ ": {"
      ++ in_quotes "base_personality" ++ ": ["
      ++ in_quotes "You are Jarvis." ++ "], "
      ++ in_quotes "tone" ++ ": " ++ in_quotes "dry" ++ "}}".

(** A parser that knows that document too. *)
Definition loads_lines (text : string) : result json :=
  if String.eqb text lines_document then Ok base_as_lines
  else loads_sample text.

(** Ollama answers every chat with [content]; the project root holds a
    configuration file with the content [text]. *)
Definition online_with_root (text : string) (content : json) : environment :=
  {|
    os_path_exists := fun _ p => String.eqb p "../../jarvis_personality.json";
    open_read := fun _ _ => Ok text;
    httpx_get := fun _ _ => Ok 200%Z;
    ollama_Client := fun _ _ => None;
    client_list := fun _ _ =>
      Ok (JDict [("models", JList [JDict [("name", JStr "llama3.1:8b")]])]);
    client_chat := fun _ _ _ _ =>
      Ok (JDict [("message", JDict [("role", JStr "assistant");
                                    ("content", content)])]);
    datetime_now_isoformat := fun _ => "2025-06-01T12:00:00"
  |}.

(** Ollama answers, and the project root holds the document with the list
    of lines. *)
Definition lines_world : environment :=
  online_with_root lines_document (JStr "Good day.").

(** The service as [AIService()] constructs it in a world, with the
    defaults of [__init__]. *)
Definition constructed (json_loads : string -> result json)
           (world : environment) : pystate :=
  snd (init quoted json_loads world "llama3.1:8b" "http://localhost:11434" []).

(** A validator that keeps text and refuses everything else. *)
Definition strict_str (v : json) : option string :=
  match v with
  | JStr s => Some s
  | _ => None
  end.

(** Nothing is reachable; the project root holds a configuration file with
    the content [text]. *)
Definition root_holds (text : string) : environment := {|
  os_path_exists := fun _ p => String.eqb p "../../jarvis_personality.json";
  open_read := fun _ _ => Ok text;
  httpx_get := fun _ _ => Raise (Failure "ConnectError");
  ollama_Client := fun _ _ => None;
  client_list := fun _ _ => Raise (Failure "ConnectError");
  client_chat := fun _ _ _ _ => Raise (Failure "ConnectError");
  datetime_now_isoformat := fun _ => "2025-06-01T12:00:00"
|}.


(** ** Properties *)

Section Properties.

Variable repr_str : string -> string.
Variable json_loads : string -> result json.
Variable world : environment.

Lemma length_snoc (A : Type) (l : list A) (x : A) :
  length (l ++ [x]) = S (length l).
Proof. rewrite length_app. simpl. lia. Qed.


Lemma default_is_defaulted : defaulted _get_default_personality.
Proof. repeat split. Qed.

(** Run a method body as far as the outside world lets it. *)
Ltac py_run :=
  cbv beta iota zeta delta
    [bind try_except external external_call lift ret raise logger get_self
     set_client set_personality_config];
  cbn [trace self];
  rewrite ?length_snoc.

(** What the loader returns and what it touches, by the outcome of the
    search. *)
Lemma loader_steps (s : pystate) :
  let t := length (trace s) in
  match first_existing world t candidates with
  | None =>
      exists s',
        _load_personality_config json_loads world s
        = (Ok _get_default_personality, s')
        /\ self s' = self s
        /\ trace s'
           = (trace s ++ map EvExists candidates
                ++ [EvLog WARNING
                      "Personality config file not found, using defaults"
                      None])%list
  | Some (p, t', later) =>
      exists earlier s',
        candidates = (earlier ++ p :: later)%list
        /\ match read_config json_loads world t' p with
           | Ok cfg =>
               _load_personality_config json_loads world s = (Ok cfg, s')
               /\ trace s'
                  = (trace s ++ map EvExists (earlier ++ [p])
                       ++ [EvOpen p;
                           EvLog INFO
                             ("Loaded personality config from " ++ p)%string
                             None])%list
           | Raise e =>
               _load_personality_config json_loads world s
               = (Ok _get_default_personality, s')
               /\ trace s'
                  = (trace s ++ map EvExists (earlier ++ [p])
                       ++ [EvOpen p;
                           EvLog ERROR "Failed to load personality config: "
                             (Some e)])%list
           end
        /\ self s' = self s
  end.
Proof.
  cbv zeta. unfold candidates, read_config. cbn [first_existing].
  unfold _load_personality_config, os_path_exists_, open_json_load. py_run.
  destruct (os_path_exists world (length (trace s)) _) eqn:E1; py_run.
  - exists []. cbn [app map].
    destruct (open_read world _ _) as [text|e]; py_run;
      [destruct (json_loads text) as [cfg|e]|];
      eexists; (split; [reflexivity|]);
      (split; [split; [reflexivity | cbn; rewrite <- !app_assoc; reflexivity]
             | reflexivity]).
  - destruct (os_path_exists world (S (length (trace s))) _) eqn:E2; py_run.
    + exists ["../../jarvis_personality.json"]. cbn [app map].
      destruct (open_read world _ _) as [text|e]; py_run;
        [destruct (json_loads text) as [cfg|e]|];
        eexists; (split; [reflexivity|]);
      (split; [split; [reflexivity | cbn; rewrite <- !app_assoc; reflexivity]
             | reflexivity]).
    + destruct (os_path_exists world (S (S (length (trace s)))) _) eqn:E3;
        py_run.
      * exists ["../../jarvis_personality.json"; "../jarvis_personality.json"].
        cbn [app map].
        destruct (open_read world _ _) as [text|e]; py_run;
          [destruct (json_loads text) as [cfg|e]|];
          eexists; (split; [reflexivity|]);
      (split; [split; [reflexivity | cbn; rewrite <- !app_assoc; reflexivity]
             | reflexivity]).
      * eexists. split; [reflexivity|]. cbn. split; [reflexivity|].
        rewrite <- !app_assoc. reflexivity.
Qed.

Lemma candidates_distinct : NoDup candidates.
Proof.
  unfold candidates.
  repeat constructor; cbn;
    repeat (let H := fresh in intros [H|H]; [discriminate H|revert H]);
    intros [].
Qed.

Lemma later_not_earlier (earlier later : list string) (p q : string) :
  NoDup (earlier ++ p :: later) -> In q later -> ~ In q (earlier ++ [p]).
Proof.
  induction earlier as [|a earlier IH]; cbn; intros ND Hq.
  - inversion ND; subst. intros [->|[]]. contradiction.
  - inversion ND as [|x l Hnotin ND']; subst. intros [->|Hin].
    + apply Hnotin. apply in_or_app. right. right. exact Hq.
    + exact (IH ND' Hq Hin).
Qed.

(** C5: the loader never raises, and when no candidate exists or the chosen
    file cannot be read as JSON it returns the built-in default, a
    PersonalityConfig whose [identity.name] is "Jarvis" and whose
    [personality.base_personality] is the sentence of
    [_get_default_personality]. *)
Theorem loader_never_raises (s : pystate) :
  exists cfg s',
    _load_personality_config json_loads world s = (Ok cfg, s')
    /\ (first_existing world (length (trace s)) candidates = None ->
        defaulted cfg)
    /\ (forall p t later e,
          first_existing world (length (trace s)) candidates
          = Some (p, t, later) ->
          read_config json_loads world t p = Raise e ->
          defaulted cfg).
Proof.
  pose proof (loader_steps s) as H. cbv zeta in H.
  destruct (first_existing world (length (trace s)) candidates)
    as [[[p t] later]|] eqn:E.
  - destruct H as (earlier & s' & _ & H & _).
    destruct (read_config json_loads world t p) as [cfg|e] eqn:R;
      destruct H as [H _].
    + exists cfg, s'. split; [exact H|]. split; [discriminate|].
      intros p' t' later' e' Heq. inversion Heq; subst. congruence.
    + exists _get_default_personality, s'. split; [exact H|].
      split; intros; apply default_is_defaulted.
  - destruct H as (s' & H & _).
    exists _get_default_personality, s'. split; [exact H|].
    split; intros; apply default_is_defaulted.
Qed.

(** C4: when the first candidate that exists cannot be read as JSON, the
    loader returns the built-in default, and between its call and its
    return no later candidate is checked for existence or opened, whatever
    the world holds at those locations. *)
Theorem loader_stops_at_unparsable
        (s : pystate) (p : string) (t : nat) (later : list string) (e : exn) :
  first_existing world (length (trace s)) candidates = Some (p, t, later) ->
  read_config json_loads world t p = Raise e ->
  exists s' events,
    _load_personality_config json_loads world s
    = (Ok _get_default_personality, s')
    /\ trace s' = (trace s ++ events)%list
    /\ forall q, In q later ->
                 ~ In (EvExists q) events /\ ~ In (EvOpen q) events.
Proof.
  intros E R.
  pose proof (loader_steps s) as H. cbv zeta in H. rewrite E in H.
  destruct H as (earlier & s' & Hc & H & _). rewrite R in H.
  destruct H as [Hrun Htrace].
  exists s'. eexists. split; [exact Hrun|]. split; [exact Htrace|].
  intros q Hq.
  assert (Hnot : ~ In q (earlier ++ [p])).
  { apply later_not_earlier with (later := later); [|exact Hq].
    rewrite <- Hc. apply candidates_distinct. }
  split; intros Hin; apply in_app_or in Hin; destruct Hin as [Hin|Hin].
  - apply in_map_iff in Hin. destruct Hin as (x & Hx & Hin).
    inversion Hx; subst. contradiction.
  - cbn in Hin. destruct Hin as [Hin|[Hin|[]]]; discriminate.
  - apply in_map_iff in Hin. destruct Hin as (x & Hx & _). discriminate.
  - cbn in Hin. destruct Hin as [Hin|[Hin|[]]]; [|discriminate].
    inversion Hin; subst. apply Hnot. apply in_or_app. right. left.
    reflexivity.
Qed.

(** *** What a method leaves of the service object *)

Section Frames.

Variable I : AIService -> Prop.
Variable R : AIService -> AIService -> Prop.
Hypothesis R_refl : forall a, R a a.
Hypothesis R_trans : forall a b c, R a b -> R b c -> R a c.


Lemma stable_ret (A : Type) (a : A) : stable I R (ret a).
Proof. intros s H. cbn. auto. Qed.

Lemma stable_raise (A : Type) (e : exn) : stable I R (@raise A e).
Proof. intros s H. cbn. auto. Qed.

Lemma stable_lift (A : Type) (r : result A) : stable I R (lift r).
Proof. intros s H. cbn. auto. Qed.

Lemma stable_get_self : stable I R get_self.
Proof. intros s H. cbn. auto. Qed.

Lemma stable_external (A : Type) (ev : event) (oracle : nat -> A) :
  stable I R (external ev oracle).
Proof. intros s H. cbn. auto. Qed.

Lemma stable_bind (A B : Type) (m : Py A) (f : A -> Py B) :
  stable I R m -> (forall a, stable I R (f a)) -> stable I R (bind m f).
Proof.
  intros Hm Hf s H. unfold bind.
  destruct (Hm s H) as [HR HI]. destruct (m s) as [[a|e] s1]; cbn in *.
  - destruct (Hf a s1 HI) as [HR' HI']. split; [|exact HI'].
    eapply R_trans; eassumption.
  - auto.
Qed.

Lemma stable_try_except (A : Type) (body : Py A) (handler : exn -> Py A) :
  stable I R body -> (forall e, stable I R (handler e)) ->
  stable I R (try_except body handler).
Proof.
  intros Hm Hf s H. unfold try_except.
  destruct (Hm s H) as [HR HI]. destruct (body s) as [[a|e] s1]; cbn in *.
  - auto.
  - destruct (Hf e s1 HI) as [HR' HI']. split; [|exact HI'].
    eapply R_trans; eassumption.
Qed.

Lemma stable_external_call (A : Type) (ev : event)
      (oracle : nat -> result A) :
  stable I R (external_call ev oracle).
Proof.
  apply stable_bind; [apply stable_external|intros; apply stable_lift].
Qed.

Lemma stable_logger (lvl : level) (text : string) (err : option exn) :
  stable I R (logger lvl text err).
Proof. apply stable_external. Qed.

Lemma stable_identity_field (field dflt : string) :
  stable I R (identity_field field dflt).
Proof.
  unfold identity_field.
  apply stable_bind; [apply stable_get_self|intros svc].
  apply stable_bind; intros; apply stable_lift.
Qed.

Lemma stable_now : stable I R (now world).
Proof. apply stable_external. Qed.

Lemma stable_is_available : stable I R (is_available world).
Proof.
  unfold is_available.
  apply stable_bind; [apply stable_get_self|intros svc].
  destruct (client svc); [|apply stable_ret].
  apply stable_try_except.
  - apply stable_bind; [apply stable_external_call|intros; apply stable_ret].
  - intros e. apply stable_bind; [apply stable_logger|intros; apply stable_ret].
Qed.

Lemma stable_get_status : stable I R (get_status world).
Proof.
  unfold get_status.
  apply stable_bind; [apply stable_is_available|intros available].
  apply stable_bind; [apply stable_get_self|intros svc].
  apply stable_bind; [apply stable_identity_field|intros name].
  apply stable_bind; [apply stable_identity_field|intros display_name].
  destruct available; [|apply stable_ret].
  destruct (client svc); [|apply stable_ret].
  apply stable_try_except; [|intros; apply stable_ret].
  apply stable_bind; [apply stable_external_call|intros models].
  apply stable_bind; intros; apply stable_lift.
Qed.

(** Everything built on the prompt is as stable I R as the prompt. *)
Hypothesis stable_prompt : stable I R (_get_system_prompt repr_str).

Lemma stable_ai_attempt (message : string) :
  stable I R (ai_attempt repr_str world message).
Proof.
  unfold ai_attempt.
  apply stable_bind; [exact stable_prompt|intros system_prompt].
  apply stable_bind; [apply stable_get_self|intros svc].
  apply stable_bind.
  - destruct (client svc); [apply stable_external_call|apply stable_raise].
  - intros response. apply stable_bind; intros; apply stable_lift.
Qed.

Lemma stable_generate_ai_response (message : string) :
  stable I R (_generate_ai_response repr_str world message).
Proof.
  unfold _generate_ai_response.
  apply stable_try_except; [apply stable_ai_attempt|intros e].
  apply stable_bind; [apply stable_logger|intros; apply stable_ret].
Qed.

Lemma stable_generate_response (message : string) :
  stable I R (generate_response repr_str world message).
Proof.
  unfold generate_response.
  apply stable_bind; [apply stable_get_self|intros svc].
  apply stable_bind.
  - destruct (client svc); [|apply stable_ret].
    apply stable_try_except.
    + apply stable_bind; [apply stable_generate_ai_response|intros v].
      destruct (Py.truthy v); [|apply stable_ret].
      apply stable_bind; [apply stable_get_self|intros svc'].
      apply stable_bind; [apply stable_identity_field|intros name].
      apply stable_bind; [apply stable_now|intros; apply stable_ret].
    + intros e.
      apply stable_bind; [apply stable_logger|intros; apply stable_ret].
  - intros [result|]; [apply stable_ret|].
    apply stable_bind; [apply stable_identity_field|intros name].
    apply stable_bind; [apply stable_now|intros; apply stable_ret].
Qed.

End Frames.

(** *** The system prompt *)

Lemma append_assoc (a b c : string) : ((a ++ b) ++ c = a ++ (b ++ c))%string.
Proof. induction a as [|x a IH]; cbn; [reflexivity|now rewrite IH]. Qed.

Lemma append_empty (a : string) : (a ++ EmptyString)%string = a.
Proof. induction a as [|x a IH]; cbn; [reflexivity|now rewrite IH]. Qed.


(** A trait appended to a prompt that is not a list touches nothing. *)
Lemma append_trait_text (d : json) (key before after : string)
      (system_prompt : json) (s : pystate) :
  is_list system_prompt = false ->
  exists r,
    append_trait repr_str d key before after system_prompt s = (r, s)
    /\ forall v, r = Ok v -> is_list v = false.
Proof.
  intros Hsp. unfold append_trait, iadd. py_run.
  destruct (Py.get d key JNull) as [v|e]; [|eexists; split; [reflexivity|discriminate]].
  destruct (Py.truthy v).
  - destruct (Py.getitem d key) as [x|e];
      [|eexists; split; [reflexivity|discriminate]].
    destruct system_prompt; try discriminate;
      eexists; (split; [reflexivity|]); intros w Hw; inversion Hw; reflexivity.
  - eexists. split; [reflexivity|]. intros w Hw. inversion Hw; subst. exact Hsp.
Qed.

Lemma base_not_list (cfg section system_prompt : json) (dflt : string) :
  base_is_list cfg = false ->
  Py.get cfg "personality" (JDict []) = Ok section ->
  Py.get section "base_personality" (JStr dflt) = Ok system_prompt ->
  is_list system_prompt = false.
Proof.
  unfold base_is_list, section_of, Py.get.
  destruct cfg as [| | | | | |kvs]; try discriminate.
  destruct (Py.assoc "personality" kvs) as [p|]; intros Hb Hs Hp.
  - inversion Hs; subst. destruct section as [| | | | | |fields]; try discriminate.
    destruct (Py.assoc "base_personality" fields) as [v|];
      inversion Hp; subst; [|reflexivity].
    destruct system_prompt; try reflexivity. discriminate.
  - inversion Hs; subst. cbn in Hp. inversion Hp. reflexivity.
Qed.

Ltac trait_step :=
  match goal with
  | Hnl : is_list ?sp = false
    |- context [append_trait ?r ?d ?k ?b ?a ?sp ?s] =>
      let res := fresh "res" in
      let Hres := fresh "Hres" in
      let Hnext := fresh "Hnext" in
      destruct (append_trait_text d k b a sp s Hnl) as (res & Hres & Hnext);
      rewrite Hres; clear Hres;
      destruct res as [?v|?e];
      [ specialize (Hnext _ eq_refl); clear Hnl; cbv beta iota
      | eexists; reflexivity ]
  end.

(** Unless [base_personality] is a list, building the prompt leaves the
    whole state as it was. *)
Lemma prompt_touches_nothing (s : pystate) :
  base_is_list (personality_config (self s)) = false ->
  exists r, _get_system_prompt repr_str s = (r, s).
Proof.
  intros Hb. unfold _get_system_prompt. py_run.
  destruct (Py.get (personality_config (self s)) "personality" (JDict []))
    as [section|e] eqn:Hs; [|eexists; reflexivity].
  destruct (Py.get section "base_personality" _) as [sp|e] eqn:Hp;
    [|eexists; reflexivity].
  pose proof (base_not_list _ _ _ _ Hb Hs Hp) as Hnl.
  do 3 trait_step.
  destruct (Py.get (personality_config (self s)) "behavior" (JDict []))
    as [behavior|e]; [|eexists; reflexivity].
  do 2 trait_step.
  destruct (Py.get (personality_config (self s)) "interaction_style" (JDict []))
    as [interaction|e]; [|eexists; reflexivity].
  trait_step.
  eexists; reflexivity.
Qed.


Lemma same_identity_refl (a : AIService) : same_identity a a.
Proof. repeat split. Qed.

Lemma same_identity_trans (a b c : AIService) :
  same_identity a b -> same_identity b c -> same_identity a c.
Proof.
  intros (H1 & H2 & H3 & H4) (K1 & K2 & K3 & K4).
  repeat split; congruence.
Qed.

Lemma assoc_update_other (k k' : string) (f : json -> json)
      (kvs : list (string * json)) :
  k <> k' -> Py.assoc k (Py.assoc_update k' f kvs) = Py.assoc k kvs.
Proof.
  intros Hk. induction kvs as [|[k0 v] kvs IH]; cbn; [reflexivity|].
  destruct (String.eqb k' k0) eqn:E'; cbn.
  - apply String.eqb_eq in E'. subst k0.
    destruct (String.eqb k k') eqn:E; [|reflexivity].
    apply String.eqb_eq in E. contradiction.
  - destruct (String.eqb k k0); [reflexivity|exact IH].
Qed.

Lemma store_keeps_identity (v cfg : json) :
  identity_section (store_base_personality v cfg) = identity_section cfg.
Proof.
  destruct cfg; try reflexivity. unfold identity_section, Py.get. cbn.
  rewrite assoc_update_other; [reflexivity|discriminate].
Qed.


Lemma iadd_keeps_identity (system_prompt : json) (clause_ : string) :
  stable anything same_identity (iadd system_prompt clause_).
Proof.
  intros s _. split; [|exact Logic.I].
  destruct system_prompt; cbn; try apply same_identity_refl.
  repeat split. cbn. apply store_keeps_identity.
Qed.

Lemma append_trait_keeps_identity (d : json) (key before after : string)
      (system_prompt : json) :
  stable anything same_identity
         (append_trait repr_str d key before after system_prompt).
Proof.
  unfold append_trait.
  apply stable_bind; try apply same_identity_trans;
    [apply stable_lift, same_identity_refl|intros v].
  destruct (Py.truthy v); [|apply stable_ret, same_identity_refl].
  apply stable_bind; try apply same_identity_trans;
    [apply stable_lift, same_identity_refl|intros x].
  apply iadd_keeps_identity.
Qed.

Lemma prompt_keeps_identity :
  stable anything same_identity (_get_system_prompt repr_str).
Proof.
  unfold _get_system_prompt.
  repeat (apply stable_bind; try apply same_identity_trans;
          [first [ apply stable_get_self, same_identity_refl
                 | apply stable_lift, same_identity_refl
                 | apply append_trait_keeps_identity ]
          | intros ? ]).
  apply stable_ret, same_identity_refl.
Qed.


Lemma prompt_keeps_self :
  stable base_no_list (@eq AIService) (_get_system_prompt repr_str).
Proof.
  intros s H. destruct (prompt_touches_nothing s H) as (r & Hr).
  rewrite Hr. cbn. split; [reflexivity|exact H].
Qed.

(** In a PersonalityConfig every section that the prompt reads is a dict of
    text fields. *)
Lemma typed_section (kvs : list (string * json)) (name : string)
      (fields : list string) :
  text_fields fields (Py.assoc name kvs) = true ->
  Py.get (JDict kvs) name (JDict []) = Ok (JDict (section_of (JDict kvs) name))
  /\ forall k, In k fields ->
               Py.assoc k (section_of (JDict kvs) name) = None
               \/ exists t, Py.assoc k (section_of (JDict kvs) name)
                            = Some (JStr t).
Proof.
  unfold text_fields, section_of, Py.get.
  destruct (Py.assoc name kvs) as [[| | | | | |entries]|]; try discriminate.
  - intros H. split; [reflexivity|]. intros k Hk.
    rewrite forallb_forall in H. specialize (H k Hk).
    destruct (Py.assoc k entries) as [[]|]; try discriminate; eauto.
  - intros _. split; [reflexivity|]. intros k _. left. reflexivity.
Qed.

Lemma append_trait_typed (cfg : json) (section key before after prompt : string)
      (s : pystate) :
  (Py.assoc key (section_of cfg section) = None
   \/ exists t, Py.assoc key (section_of cfg section) = Some (JStr t)) ->
  append_trait repr_str (JDict (section_of cfg section)) key
               (" " ++ before) after (JStr prompt) s
  = (Ok (JStr (prompt ++ clause before after (trait cfg section key))), s).
Proof.
  unfold append_trait, trait, clause, iadd, Py.get, Py.getitem. py_run.
  intros [H|[t H]]; rewrite H; cbn.
  - rewrite append_empty. reflexivity.
  - destruct (String.eqb t EmptyString); cbn; [|reflexivity].
    rewrite append_empty. reflexivity.
Qed.

Lemma prompt_of_personality_config (s : pystate) :
  is_personality_config (personality_config (self s)) = true ->
  _get_system_prompt repr_str s
  = (Ok (JStr (expected_prompt (personality_config (self s)))), s).
Proof.
  intros H. unfold _get_system_prompt. py_run.
  destruct (personality_config (self s)) as [| | | | | |kvs] eqn:Hcfg;
    try discriminate.
  cbn [is_personality_config] in H.
  apply andb_prop in H. destruct H as [H Hi].
  apply andb_prop in H. destruct H as [H Hb].
  apply andb_prop in H. destruct H as [_ Hp].
  destruct (typed_section _ _ _ Hp) as [Gp Fp].
  destruct (typed_section _ _ _ Hb) as [Gb Fb].
  destruct (typed_section _ _ _ Hi) as [Gi Fi].
  rewrite Gp, Gb, Gi. cbv beta iota.
  assert (Hbase :
    Py.get (JDict (section_of (JDict kvs) "personality")) "base_personality"
      (JStr "You are Jarvis, an AI assistant. Be helpful and intelligent.")
    = Ok (JStr match trait (JDict kvs) "personality" "base_personality" with
               | Some base => base
               | None =>
                   "You are Jarvis, an AI assistant. Be helpful and intelligent."
               end)).
  { unfold Py.get, trait.
    destruct (Fp "base_personality") as [E|[t E]];
      [cbn; tauto|rewrite E; reflexivity|rewrite E; reflexivity]. }
  rewrite Hbase. cbv beta iota.
  change " Your tone should be " with (" " ++ "Your tone should be ")%string.
  change " Use " with (" " ++ "Use ")%string.
  change " Be " with (" " ++ "Be ")%string.
  change " Keep responses " with (" " ++ "Keep responses ")%string.
  change " Approach problems in an "
    with (" " ++ "Approach problems in an ")%string.
  change " When explaining complex topics, "
    with (" " ++ "When explaining complex topics, ")%string.
  rewrite (append_trait_typed (JDict kvs) "personality" "tone")
    by (apply Fp; cbn; tauto).
  cbv beta iota.
  rewrite (append_trait_typed (JDict kvs) "personality" "humor_level")
    by (apply Fp; cbn; tauto).
  cbv beta iota.
  rewrite (append_trait_typed (JDict kvs) "personality" "confidence")
    by (apply Fp; cbn; tauto).
  cbv beta iota.
  rewrite (append_trait_typed (JDict kvs) "behavior" "response_style")
    by (apply Fb; cbn; tauto).
  cbv beta iota.
  rewrite (append_trait_typed (JDict kvs) "behavior" "problem_solving")
    by (apply Fb; cbn; tauto).
  cbv beta iota.
  rewrite (append_trait_typed (JDict kvs) "interaction_style"
             "explanation_method") by (apply Fi; cbn; tauto).
  cbv beta iota.
  unfold expected_prompt. rewrite !append_assoc. reflexivity.
Qed.

(** C3: for a PersonalityConfig the system prompt is a function of the
    configuration alone: it is the base personality (or the built-in
    sentence) followed, in the order tone, humor_level, confidence,
    response_style, problem_solving, explanation_method, by one clause for
    each trait that is present and not empty; building it changes nothing
    and touches nothing outside; with no trait set it is the base
    personality verbatim; and any two calls under the same configuration
    give the same text. *)
Theorem system_prompt_assembly (s : pystate) :
  is_personality_config (personality_config (self s)) = true ->
  let cfg := personality_config (self s) in
  _get_system_prompt repr_str s = (Ok (JStr (expected_prompt cfg)), s)
  /\ (forall base,
        trait cfg "personality" "base_personality" = Some base ->
        trait cfg "personality" "tone" = None ->
        trait cfg "personality" "humor_level" = None ->
        trait cfg "personality" "confidence" = None ->
        trait cfg "behavior" "response_style" = None ->
        trait cfg "behavior" "problem_solving" = None ->
        trait cfg "interaction_style" "explanation_method" = None ->
        _get_system_prompt repr_str s = (Ok (JStr base), s))
  /\ (forall s2,
        personality_config (self s2) = cfg ->
        fst (_get_system_prompt repr_str s2)
        = fst (_get_system_prompt repr_str s))
  /\ _get_system_prompt repr_str (snd (_get_system_prompt repr_str s))
     = _get_system_prompt repr_str s.
Proof.
  intros H cfg. pose proof (prompt_of_personality_config s H) as E.
  fold cfg in E. split; [exact E|]. split; [|split].
  - intros base Hb H1 H2 H3 H4 H5 H6. rewrite E. unfold expected_prompt.
    rewrite Hb, H1, H2, H3, H4, H5, H6. cbn. rewrite append_empty.
    reflexivity.
  - intros s2 H2. rewrite E.
    rewrite (prompt_of_personality_config s2) by (rewrite H2; exact H).
    rewrite H2. reflexivity.
  - rewrite E. cbn. exact E.
Qed.

(** *** Availability *)

Lemma is_available_cases (s : pystate) :
  is_available world s
  = match client (self s) with
    | None => (Ok false, s)
    | Some c =>
        match client_list world (length (trace s)) c with
        | Ok _ =>
            (Ok true, {| self := self s; trace := trace s ++ [EvList c] |})
        | Raise e =>
            (Ok false,
             {| self := self s;
                trace := (trace s ++ [EvList c])
                           ++ [EvLog WARNING "AI service not available: "
                                 (Some e)] |})
        end
    end.
Proof.
  unfold is_available. py_run.
  destruct (client (self s)) as [c|]; [|reflexivity]. py_run.
  destruct (client_list world (length (trace s)) c); reflexivity.
Qed.

(** C7: without a client handle [is_available] answers false and no call
    leaves the process; with a handle it asks the client for its list once
    and answers true exactly when that call returns, an error becoming
    false. *)
Theorem is_available_probe (s : pystate) :
  (client (self s) = None -> is_available world s = (Ok false, s))
  /\ (forall c, client (self s) = Some c ->
        exists b s' logged,
          is_available world s = (Ok b, s')
          /\ (b = true <->
              exists listed, client_list world (length (trace s)) c = Ok listed)
          /\ (b = false <->
              exists e, client_list world (length (trace s)) c = Raise e)
          /\ self s' = self s
          /\ trace s' = (trace s ++ EvList c :: logged)%list
          /\ forall ev, In ev logged ->
                        exists e text, ev = EvLog WARNING text (Some e)).
Proof.
  rewrite is_available_cases. split.
  - intros H. rewrite H. reflexivity.
  - intros c H. rewrite H.
    destruct (client_list world (length (trace s)) c) as [listed|e] eqn:E.
    + exists true. eexists. exists []. split; [reflexivity|].
      split; [split; eauto|]. split; [split; [discriminate|]|].
      * intros [e He]. discriminate.
      * cbn. repeat split. intros ev [].
    + exists false. eexists. eexists. split; [reflexivity|].
      split; [split; [discriminate|intros [l Hl]; discriminate]|].
      split; [split; eauto|]. cbn. split; [reflexivity|].
      split; [rewrite <- app_assoc; reflexivity|].
      intros ev [<-|[]]. eauto.
Qed.

(** *** Responses *)

Lemma identity_field_readable (field dflt : string) (s : pystate) :
  identity_readable (personality_config (self s)) = true ->
  identity_field field dflt s
  = (Ok (configured (personality_config (self s)) field dflt), s).
Proof.
  unfold identity_field, identity_readable, configured. py_run.
  destruct (identity_section (personality_config (self s))) as [[]|] eqn:E;
    try discriminate.
  intros _. unfold identity_section in E. rewrite E. cbn.
  destruct (Py.assoc field entries); reflexivity.
Qed.

(** Every PersonalityConfig lets its identity section be read, and its
    base personality is no list. *)
Lemma personality_config_readable (cfg : json) :
  is_personality_config cfg = true ->
  identity_readable cfg = true /\ base_is_list cfg = false.
Proof.
  destruct cfg as [| | | | | |kvs]; try discriminate.
  unfold is_personality_config, identity_readable, identity_section,
    base_is_list, section_of, Py.get.
  intros H.
  apply andb_prop in H. destruct H as [H _].
  apply andb_prop in H. destruct H as [H _].
  apply andb_prop in H. destruct H as [Hi Hp]. split.
  - destruct (Py.assoc "identity" kvs) as [[]|]; try discriminate;
      reflexivity.
  - destruct (Py.assoc "personality" kvs) as [[| | | | | |fields]|];
      try discriminate; try reflexivity.
    cbn in Hp. apply andb_prop in Hp. destruct Hp as [Hp _].
    destruct (Py.assoc "base_personality" fields) as [[]|];
      try discriminate; reflexivity.
Qed.

Lemma attempt_keeps_identity (message : string) (s : pystate) :
  same_identity (self s) (self (snd (ai_attempt repr_str world message s))).
Proof.
  apply (stable_ai_attempt anything same_identity same_identity_refl
           same_identity_trans
           prompt_keeps_identity message s Logic.I).
Qed.

(** [generate_response] by cases, for a configuration whose identity
    section can be read. *)
Lemma generate_response_cases (message : string) (s : pystate) :
  identity_readable (personality_config (self s)) = true ->
  let cfg := personality_config (self s) in
  generate_response repr_str world message s
  = match client (self s) with
    | None =>
        (Ok (echo_result repr_str (configured cfg "name" "Assistant") message
               (datetime_now_isoformat world (length (trace s)))),
         {| self := self s; trace := trace s ++ [EvNow] |})
    | Some _ =>
        match ai_attempt repr_str world message s with
        | (Ok content, s1) =>
            if Py.truthy content then
              (Ok (ai_result content (model (self s))
                     (configured cfg "name" "AI")
                     (datetime_now_isoformat world (length (trace s1)))),
               {| self := self s1; trace := trace s1 ++ [EvNow] |})
            else
              (Ok (echo_result repr_str (configured cfg "name" "Assistant")
                     message
                     (datetime_now_isoformat world (length (trace s1)))),
               {| self := self s1; trace := trace s1 ++ [EvNow] |})
        | (Raise e, s1) =>
            (Ok (echo_result repr_str (configured cfg "name" "Assistant")
                   message
                   (datetime_now_isoformat world (S (length (trace s1))))),
             {| self := self s1;
                trace := (trace s1
                            ++ [EvLog ERROR "Ollama generation error: " (Some e)])
                           ++ [EvNow] |})
        end
    end.
Proof.
  intros Hid cfg. unfold generate_response, _generate_ai_response, now.
  py_run. destruct (client (self s)) as [c|].
  - pose proof (attempt_keeps_identity message s) as K.
    destruct (ai_attempt repr_str world message s) as [[content|e] s1];
      cbn [snd] in K; destruct K as (Km & _ & _ & Ki);
      assert (Hid1 : identity_readable (personality_config (self s1)) = true)
        by (unfold identity_readable; rewrite Ki; exact Hid);
      assert (Hc : forall f d, configured (personality_config (self s1)) f d
                               = configured cfg f d)
        by (intros; unfold configured; rewrite Ki; reflexivity).
    + destruct (Py.truthy content); py_run.
      * rewrite (identity_field_readable "name" "AI" s1 Hid1). py_run.
        rewrite Hc, Km. reflexivity.
      * rewrite (identity_field_readable "name" "Assistant" s1 Hid1). py_run.
        rewrite Hc. reflexivity.
    + py_run. change (Py.truthy JNull) with false. py_run.
      match goal with
      | |- context [identity_field "name" "Assistant" ?st] =>
          rewrite (identity_field_readable "name" "Assistant" st Hid1)
      end.
      py_run. rewrite Hc. reflexivity.
  - rewrite (identity_field_readable "name" "Assistant" s Hid). py_run.
    reflexivity.
Qed.

(** X14: for every message, and every service whose configuration lets the
    identity section be read (any PersonalityConfig does), when the service
    has no client handle, or the AI attempt raised, or it returned empty
    content, [generate_response] returns the echo result: mode "echo",
    response "Echo from {name}: {message}" with the configured name or
    "Assistant", model "fallback". *)
Theorem echo_fallback (message : string) (s : pystate) :
  identity_readable (personality_config (self s)) = true ->
  client (self s) = None
  \/ (exists e s1, ai_attempt repr_str world message s = (Raise e, s1))
  \/ (exists content s1,
        ai_attempt repr_str world message s = (Ok content, s1)
        /\ Py.truthy content = false) ->
  let name := configured (personality_config (self s)) "name" "Assistant" in
  exists timestamp s',
    generate_response repr_str world message s
    = (Ok (JDict [
             ("response",
              JStr ("Echo from " ++ Py.str repr_str name ++ ": " ++ message));
             ("mode", JStr "echo");
             ("model", JStr "fallback");
             ("personality", name);
             ("timestamp", JStr timestamp)]), s').
Proof.
  intros Hid Hcase name.
  rewrite (generate_response_cases message s Hid). cbv zeta.
  destruct (client (self s)) as [c|]; [|eexists; eexists; reflexivity].
  destruct Hcase as [Hc|[(e & s1 & E)|(content & s1 & E & Hempty)]].
  - discriminate.
  - rewrite E. eexists; eexists; reflexivity.
  - rewrite E, Hempty. eexists; eexists; reflexivity.
Qed.

(** C2, as the code has it: for every message and every configuration
    whose identity section can be read, the personality field of the result
    is the configured [identity.name]; when the configuration has none it
    is "AI" in the ai outcome and "Assistant" in the echo outcome. *)
Theorem personality_field_is_name (message : string) (s : pystate) :
  identity_readable (personality_config (self s)) = true ->
  exists entries s',
    generate_response repr_str world message s = (Ok (JDict entries), s')
    /\ ((Py.assoc "mode" entries = Some (JStr "ai")
         /\ Py.assoc "personality" entries
            = Some (configured (personality_config (self s)) "name" "AI"))
        \/ (Py.assoc "mode" entries = Some (JStr "echo")
            /\ Py.assoc "personality" entries
               = Some (configured (personality_config (self s)) "name"
                         "Assistant"))).
Proof.
  intros Hid. rewrite (generate_response_cases message s Hid). cbv zeta.
  destruct (client (self s)) as [c|].
  - destruct (ai_attempt repr_str world message s) as [[content|e] s1].
    + destruct (Py.truthy content); eexists; eexists;
        (split; [reflexivity|]); [left|right]; split; reflexivity.
    + eexists; eexists; (split; [reflexivity|]); right; split; reflexivity.
  - eexists; eexists; (split; [reflexivity|]); right; split; reflexivity.
Qed.

(** What the AI attempt returns is the content of a chat reply. *)
Lemma attempt_content (message : string) (s s1 : pystate) (content : json) :
  ai_attempt repr_str world message s = (Ok content, s1) ->
  exists t c mdl messages reply msg,
    client_chat world t c mdl messages = Ok reply
    /\ Py.getitem reply "message" = Ok msg
    /\ Py.getitem msg "content" = Ok content.
Proof.
  unfold ai_attempt. py_run.
  destruct (_get_system_prompt repr_str s) as [[prompt|e] s0];
    [|discriminate].
  destruct (client (self s0)) as [c|]; py_run; [|discriminate].
  destruct (client_chat world _ c _ _) as [reply|e] eqn:E; [|discriminate].
  destruct (Py.getitem reply "message") as [msg|e] eqn:Em; [|discriminate].
  destruct (Py.getitem msg "content") as [v|e] eqn:Ec; [|discriminate].
  intros H. inversion H; subst. eauto 10.
Qed.

(** X16: when the configuration lets the identity section be read and the
    Ollama client answers a chat with text or with no content, then for
    every message, the empty one too, [generate_response] returns a result
    whose mode is "ai" or "echo" and whose response is a text that is not
    empty. *)
Theorem response_is_never_empty (message : string) (s : pystate) :
  identity_readable (personality_config (self s)) = true ->
  chat_content_is_text world ->
  exists entries s' text,
    generate_response repr_str world message s = (Ok (JDict entries), s')
    /\ (Py.assoc "mode" entries = Some (JStr "ai")
        \/ Py.assoc "mode" entries = Some (JStr "echo"))
    /\ Py.assoc "response" entries = Some (JStr text)
    /\ text <> EmptyString.
Proof.
  intros Hid Htext. rewrite (generate_response_cases message s Hid). cbv zeta.
  assert (Hecho : forall name ts (st : pystate),
    exists entries s' text,
      (@Ok json (echo_result repr_str name message ts), st)
      = (Ok (JDict entries), s')
      /\ (Py.assoc "mode" entries = Some (JStr "ai")
          \/ Py.assoc "mode" entries = Some (JStr "echo"))
      /\ Py.assoc "response" entries = Some (JStr text)
      /\ text <> EmptyString).
  { intros. eexists; eexists; eexists. split; [reflexivity|].
    split; [right; reflexivity|]. split; [reflexivity|]. discriminate. }
  destruct (client (self s)) as [c|]; [|apply Hecho].
  destruct (ai_attempt repr_str world message s) as [[content|e] s1] eqn:E;
    [|apply Hecho].
  destruct (Py.truthy content) eqn:Ht; [|apply Hecho].
  destruct (attempt_content _ _ _ _ E) as (t & c' & mdl & ms & reply & msg & H1 & H2 & H3).
  destruct (Htext _ _ _ _ _ _ _ H1 H2 H3) as [->|[text ->]]; [discriminate|].
  eexists; eexists; exists text. split; [reflexivity|].
  split; [left; reflexivity|]. split; [reflexivity|].
  intros ->. discriminate.
Qed.

(** *** Status *)

Lemma is_available_returns (s : pystate) :
  exists b s1, is_available world s = (Ok b, s1) /\ self s1 = self s.
Proof.
  rewrite is_available_cases.
  destruct (client (self s)) as [c|]; [|eauto].
  destruct (client_list world (length (trace s)) c); eauto.
Qed.

(** [get_status] by cases, for a configuration whose identity section can
    be read. *)
Lemma get_status_cases (s : pystate) :
  identity_readable (personality_config (self s)) = true ->
  exists available s1,
    is_available world s = (Ok available, s1)
    /\ self s1 = self s
    /\ get_status world s
       = match available, client (self s) with
         | true, Some c =>
             (Ok (JDict
                    (status_fields available (self s)
                       ++ match enumeration world (length (trace s1)) c with
                          | Ok names => [("available_models", JList names)]
                          | Raise _ => []
                          end)),
              {| self := self s1; trace := trace s1 ++ [EvList c] |})
         | _, _ => (Ok (JDict (status_fields available (self s))), s1)
         end.
Proof.
  intros Hid. destruct (is_available_returns s) as (b & s1 & Hav & Hself).
  exists b, s1. split; [exact Hav|]. split; [exact Hself|].
  assert (Hid1 : identity_readable (personality_config (self s1)) = true)
    by (rewrite Hself; exact Hid).
  assert (Hloaded :
    match personality_config (self s) with JNull => false | _ => true end
    = true).
  { unfold identity_readable, identity_section, Py.get in Hid.
    destruct (personality_config (self s)); try discriminate; reflexivity. }
  unfold get_status. py_run. rewrite Hav. py_run.
  rewrite (identity_field_readable "name" "Unknown" s1 Hid1). py_run.
  rewrite (identity_field_readable "display_name" "AI Assistant" s1 Hid1).
  py_run. rewrite Hself, Hloaded. unfold status_fields, enumeration.
  destruct b; [|reflexivity].
  destruct (client (self s)) as [c|]; [|reflexivity]. py_run.
  destruct (client_list world (length (trace s1)) c) as [models|e];
    [|rewrite ?Hself; reflexivity].
  destruct (model_names models) as [names|e]; rewrite ?Hself; reflexivity.
Qed.

(** X15: for every service whose configuration lets the identity section be
    read, [get_status] returns a status whatever the probe and the
    enumeration do; the status holds "available_models" only when
    [ai_available] is true and the enumeration succeeded, and then it is
    there with the enumerated names; every other entry is the same whether
    the enumeration succeeds or fails. *)
Theorem get_status_total (s : pystate) :
  identity_readable (personality_config (self s)) = true ->
  exists available s1 entries s',
    is_available world s = (Ok available, s1)
    /\ get_status world s = (Ok (JDict entries), s')
    /\ (forall k, k <> "available_models" ->
                  Py.assoc k entries
                  = Py.assoc k (status_fields available (self s)))
    /\ (forall listed,
          Py.assoc "available_models" entries = Some listed ->
          available = true
          /\ exists c names,
               client (self s) = Some c
               /\ enumeration world (length (trace s1)) c = Ok names
               /\ listed = JList names)
    /\ (forall c names,
          available = true ->
          client (self s) = Some c ->
          enumeration world (length (trace s1)) c = Ok names ->
          Py.assoc "available_models" entries = Some (JList names))
    /\ (forall c e,
          client (self s) = Some c ->
          enumeration world (length (trace s1)) c = Raise e ->
          entries = status_fields available (self s)).
Proof.
  intros Hid.
  destruct (get_status_cases s Hid) as (b & s1 & Hav & Hself & Hst).
  exists b, s1.
  destruct b; [destruct (client (self s)) as [c|] eqn:Ec|].
  - destruct (enumeration world (length (trace s1)) c) as [names|e] eqn:En.
    + eexists; eexists. split; [exact Hav|]. split; [exact Hst|].
      split; [|split; [|split]].
      * intros k Hk. cbn.
        repeat match goal with
               | |- context [String.eqb k ?x] =>
                   destruct (String.eqb k x) eqn:?
               end; try reflexivity.
        match goal with
        | H : String.eqb k "available_models" = true |- _ =>
            apply String.eqb_eq in H; contradiction
        end.
      * intros listed H. cbn in H. inversion H; subst.
        split; [reflexivity|]. exists c, names. auto.
      * intros c' names' _ Hc' En'. inversion Hc'; subst.
        rewrite En in En'. inversion En'; subst. reflexivity.
      * intros c' e Hc'. inversion Hc'; subst. rewrite En. discriminate.
    + eexists; eexists. split; [exact Hav|].
      split; [rewrite Hst, app_nil_r; reflexivity|].
      split; [reflexivity|]. split; [intros listed H; discriminate H|].
      split; [|reflexivity].
      intros c' names' _ Hc' En'. inversion Hc'; subst.
      rewrite En in En'. discriminate En'.
  - eexists; eexists. split; [exact Hav|]. split; [exact Hst|].
    split; [reflexivity|]. split; [intros listed H; discriminate H|].
    split; [|reflexivity]. intros c' names' _ Hc'. discriminate Hc'.
  - eexists; eexists. split; [exact Hav|]. split; [exact Hst|].
    split; [reflexivity|]. split; [intros listed H; discriminate H|].
    split; [|reflexivity]. intros c' names' Hb. discriminate Hb.
Qed.

(** *** The service object across requests *)

Lemma eq_trans_service (a b c : AIService) : a = b -> b = c -> a = c.
Proof. congruence. Qed.

(** X17: [is_available] and [get_status] leave the model identifier, the
    endpoint, the client handle and the configuration as they were, on
    every path; so does [generate_response], on every path, when
    [personality.base_personality] is not a list (in a PersonalityConfig it
    is text). *)
Theorem requests_leave_service_unchanged (message : string) (s : pystate) :
  self (snd (is_available world s)) = self s
  /\ self (snd (get_status world s)) = self s
  /\ (base_is_list (personality_config (self s)) = false ->
      self (snd (generate_response repr_str world message s)) = self s).
Proof.
  split; [|split].
  - symmetry.
    apply (stable_is_available anything (@eq AIService) (@eq_refl AIService)
             eq_trans_service s Logic.I).
  - symmetry.
    apply (stable_get_status anything (@eq AIService) (@eq_refl AIService)
             eq_trans_service s Logic.I).
  - intros H. symmetry.
    apply (stable_generate_response base_no_list (@eq AIService)
             (@eq_refl AIService) eq_trans_service prompt_keeps_self
             message s H).
Qed.

(** C10: with a configuration that has no [identity.name] (no identity
    section, or one without that field), the echo result of
    [generate_response] is "Echo from Assistant: {message}" under the
    personality "Assistant", its AI result has the personality "AI", and
    [get_status] reports the name "Unknown". *)
Theorem default_name_differs (message : string) (s : pystate)
        (fields : list (string * json)) :
  identity_section (personality_config (self s)) = Ok (JDict fields) ->
  Py.assoc "name" fields = None ->
  (client (self s) = None
   \/ (exists e s1, ai_attempt repr_str world message s = (Raise e, s1))
   \/ (exists content s1,
         ai_attempt repr_str world message s = (Ok content, s1)
         /\ Py.truthy content = false) ->
   exists timestamp s',
     generate_response repr_str world message s
     = (Ok (JDict [
              ("response", JStr ("Echo from Assistant: " ++ message));
              ("mode", JStr "echo");
              ("model", JStr "fallback");
              ("personality", JStr "Assistant");
              ("timestamp", JStr timestamp)]), s'))
  /\ (forall c content s1,
        client (self s) = Some c ->
        ai_attempt repr_str world message s = (Ok content, s1) ->
        Py.truthy content = true ->
        exists timestamp s',
          generate_response repr_str world message s
          = (Ok (JDict [
                   ("response", content);
                   ("mode", JStr "ai");
                   ("model", JStr (model (self s)));
                   ("personality", JStr "AI");
                   ("timestamp", JStr timestamp)]), s'))
  /\ (exists entries info s',
        get_status world s = (Ok (JDict entries), s')
        /\ Py.assoc "personality" entries = Some (JDict info)
        /\ Py.assoc "name" info = Some (JStr "Unknown")).
Proof.
  intros Hsec Hname.
  assert (Hid : identity_readable (personality_config (self s)) = true)
    by (unfold identity_readable; rewrite Hsec; reflexivity).
  assert (Hdef : forall d, configured (personality_config (self s)) "name" d
                           = JStr d)
    by (intros; unfold configured; rewrite Hsec, Hname; reflexivity).
  split; [|split].
  - intros Hcase.
    rewrite (generate_response_cases message s Hid). cbv zeta.
    rewrite !Hdef. unfold echo_result. cbn [Py.str].
    destruct (client (self s)) as [c|]; [|eexists; eexists; reflexivity].
    destruct Hcase as [Hc|[(e & s1 & E)|(content & s1 & E & Hempty)]].
    + discriminate.
    + rewrite E. eexists; eexists; reflexivity.
    + rewrite E, Hempty. eexists; eexists; reflexivity.
  - intros c content s1 Hc E Ht.
    rewrite (generate_response_cases message s Hid). cbv zeta.
    rewrite Hc, E, Ht, !Hdef. eexists; eexists; reflexivity.
  - destruct (get_status_cases s Hid) as (b & s1 & _ & _ & Hst).
    rewrite Hst. unfold status_fields. rewrite !Hdef.
    destruct b; [destruct (client (self s))|];
      eexists; eexists; eexists; (split; [reflexivity|]);
      split; reflexivity.
Qed.

End Properties.

(** ** The theorems at work *)

Lemma echo_fallback_witness :
  identity_readable (personality_config (self offline_service)) = true
  /\ client (self offline_service) = None
  /\ (exists timestamp s',
        generate_response quoted offline "Hello" offline_service
        = (Ok (JDict [("response", JStr "Echo from Jarvis: Hello");
                      ("mode", JStr "echo");
                      ("model", JStr "fallback");
                      ("personality", JStr "Jarvis");
                      ("timestamp", JStr timestamp)]), s'))
  /\ (exists timestamp s',
        generate_response quoted flaky "Hello" nameless_service
        = (Ok (JDict [("response", JStr "Echo from Assistant: Hello");
                      ("mode", JStr "echo");
                      ("model", JStr "fallback");
                      ("personality", JStr "Assistant");
                      ("timestamp", JStr timestamp)]), s')).
Proof.
  split; [reflexivity|]. split; [reflexivity|]. split.
  - exact (echo_fallback quoted offline "Hello"
             offline_service
             eq_refl (or_introl eq_refl)).
  - exact (echo_fallback quoted flaky "Hello"
             nameless_service
             eq_refl
             (or_intror (or_introl
                (ex_intro _ (Failure "ReadTimeout")
                   (ex_intro _ _ eq_refl))))).
Defined.

(** C2 as stated fails: the built-in configuration is named "Jarvis" and
    displayed as "J.A.R.V.I.S.", and the result carries "Jarvis". *)
Lemma display_name_not_carried :
  ~ carries_display_name quoted offline "Hello"
      offline_service.
Proof.
  intros (entries & s' & H & Hp).
  vm_compute in H. inversion H; subst. vm_compute in Hp. discriminate Hp.
Qed.

Lemma personality_field_is_name_witness :
  identity_readable _get_default_personality = true
  /\ exists entries s',
       generate_response quoted offline "Hello"
         offline_service
       = (Ok (JDict entries), s')
       /\ ((Py.assoc "mode" entries = Some (JStr "ai")
            /\ Py.assoc "personality" entries = Some (JStr "Jarvis"))
           \/ (Py.assoc "mode" entries = Some (JStr "echo")
               /\ Py.assoc "personality" entries = Some (JStr "Jarvis"))).
Proof.
  split; [reflexivity|].
  exact (personality_field_is_name quoted offline "Hello"
           offline_service eq_refl).
Defined.

Lemma system_prompt_assembly_witness :
  is_personality_config styled = true
  /\ _get_system_prompt quoted (service_with styled None)
     = (Ok (JStr "You are Jarvis. Your tone should be dry. Approach problems in an analytical way."),
        service_with styled None).
Proof.
  split; [reflexivity|].
  exact (proj1 (system_prompt_assembly quoted (service_with styled None)
                  eq_refl)).
Defined.

Lemma loader_stops_at_unparsable_witness :
  first_existing broken_then_good 0 candidates
  = Some ("../jarvis_personality.json", 2, ["jarvis_personality.json"])
  /\ read_config loads_sample broken_then_good 2 "../jarvis_personality.json"
     = Raise (Failure "JSONDecodeError")
  /\ read_config loads_sample broken_then_good 3 "jarvis_personality.json"
     = Ok (JDict [])
  /\ exists s' events,
       _load_personality_config loads_sample broken_then_good
         (service_with JNull None)
       = (Ok _get_default_personality, s')
       /\ trace s' = events
       /\ forall q, In q ["jarvis_personality.json"] ->
                    ~ In (EvExists q) events /\ ~ In (EvOpen q) events.
Proof.
  split; [reflexivity|]. split; [reflexivity|]. split; [reflexivity|].
  exact (loader_stops_at_unparsable loads_sample broken_then_good
           (service_with JNull None)
           "../jarvis_personality.json" 2 ["jarvis_personality.json"]
           (Failure "JSONDecodeError") eq_refl eq_refl).
Defined.

Lemma loader_never_raises_witness :
  first_existing offline 0 candidates = None
  /\ exists cfg s',
       _load_personality_config loads_sample offline (service_with JNull None)
       = (Ok cfg, s')
       /\ defaulted cfg.
Proof.
  split; [reflexivity|].
  destruct (loader_never_raises loads_sample offline (service_with JNull None))
    as (cfg & s' & H & Hnone & _).
  exists cfg, s'. split; [exact H|exact (Hnone eq_refl)].
Defined.

Lemma is_available_probe_witness :
  is_available offline offline_service
  = (Ok false, service_with _get_default_personality None).
Proof.
  exact (proj1 (is_available_probe offline
                  offline_service) eq_refl).
Defined.

Lemma online_content_is_text (content : string) :
  chat_content_is_text (online (JStr content)).
Proof.
  intros t c mdl messages reply msg v H1 H2 H3.
  cbn in H1. inversion H1; subst. cbn in H2. inversion H2; subst.
  cbn in H3. inversion H3; subst. right. eexists. reflexivity.
Qed.

Lemma response_is_never_empty_witness :
  identity_readable (personality_config (self styled_service)) = true
  /\ chat_content_is_text (online (JStr "At your service."))
  /\ exists entries s' text,
       generate_response quoted (online (JStr "At your service."))
         EmptyString styled_service
       = (Ok (JDict entries), s')
       /\ (Py.assoc "mode" entries = Some (JStr "ai")
           \/ Py.assoc "mode" entries = Some (JStr "echo"))
       /\ Py.assoc "response" entries = Some (JStr text)
       /\ text <> EmptyString.
Proof.
  split; [reflexivity|].
  split; [apply online_content_is_text|].
  exact (response_is_never_empty quoted (online (JStr "At your service."))
           EmptyString styled_service
           eq_refl (online_content_is_text "At your service.")).
Defined.

Lemma get_status_total_witness :
  identity_readable (personality_config (self nameless_service)) = true
  /\ exists available s1 entries s',
       is_available flaky nameless_service = (Ok available, s1)
       /\ get_status flaky nameless_service = (Ok (JDict entries), s')
       /\ (forall k, k <> "available_models" ->
                     Py.assoc k entries
                     = Py.assoc k (status_fields available
                                     (self nameless_service)))
       /\ (forall listed,
             Py.assoc "available_models" entries = Some listed ->
             available = true
             /\ exists c names,
                  client (self nameless_service) = Some c
                  /\ enumeration flaky (length (trace s1)) c = Ok names
                  /\ listed = JList names)
       /\ (forall c names,
             available = true ->
             client (self nameless_service) = Some c ->
             enumeration flaky (length (trace s1)) c = Ok names ->
             Py.assoc "available_models" entries = Some (JList names))
       /\ (forall c e,
             client (self nameless_service) = Some c ->
             enumeration flaky (length (trace s1)) c = Raise e ->
             entries = status_fields available (self nameless_service)).
Proof.
  split; [reflexivity|].
  exact (get_status_total flaky nameless_service eq_refl).
Defined.

Lemma requests_leave_service_unchanged_witness :
  base_is_list (personality_config (self styled_service)) = false
  /\ self (snd (is_available flaky styled_service)) = self styled_service
  /\ self (snd (get_status flaky styled_service)) = self styled_service
  /\ self (snd (generate_response quoted flaky "Hello" styled_service))
     = self styled_service.
Proof.
  split; [reflexivity|].
  destruct (requests_leave_service_unchanged quoted flaky "Hello"
              styled_service) as (H1 & H2 & H3).
  split; [exact H1|]. split; [exact H2|exact (H3 eq_refl)].
Defined.

Lemma default_name_differs_witness :
  identity_section (personality_config (self nameless_service))
  = Ok (JDict [("role", JStr "AI Assistant")])
  /\ Py.assoc "name" [("role", JStr "AI Assistant")] = None
  /\ (exists timestamp s',
        generate_response quoted flaky "Hello" nameless_service
        = (Ok (JDict [("response", JStr "Echo from Assistant: Hello");
                      ("mode", JStr "echo");
                      ("model", JStr "fallback");
                      ("personality", JStr "Assistant");
                      ("timestamp", JStr timestamp)]), s'))
  /\ (exists timestamp s',
        generate_response quoted (online (JStr "Good day.")) "Hello"
          nameless_service
        = (Ok (JDict [("response", JStr "Good day.");
                      ("mode", JStr "ai");
                      ("model", JStr "llama3.1:8b");
                      ("personality", JStr "AI");
                      ("timestamp", JStr timestamp)]), s'))
  /\ (exists entries info s',
        get_status flaky nameless_service = (Ok (JDict entries), s')
        /\ Py.assoc "personality" entries = Some (JDict info)
        /\ Py.assoc "name" info = Some (JStr "Unknown")).
Proof.
  split; [reflexivity|]. split; [reflexivity|].
  pose proof (default_name_differs quoted flaky "Hello"
                nameless_service
                [("role", JStr "AI Assistant")] eq_refl eq_refl)
    as (Hecho & _ & Hstatus).
  pose proof (default_name_differs quoted (online (JStr "Good day.")) "Hello"
                nameless_service
                [("role", JStr "AI Assistant")] eq_refl eq_refl)
    as (_ & Hai & _).
  split; [|split; [|exact Hstatus]].
  - exact (Hecho (or_intror (or_introl
             (ex_intro _ (Failure "ReadTimeout") (ex_intro _ _ eq_refl))))).
  - exact (Hai local_client (JStr "Good day.") _ eq_refl eq_refl eq_refl).
Defined.

(** ** Outside the data model *)

(** The hypotheses above are needed.  A file that parses to something other
    than a mapping with a mapping for identity is loaded as it is, and the
    name lookups then raise. *)
Example unreadable_identity_raises :
  identity_readable (JList []) = false
  /\ fst (generate_response quoted offline "Hello" (service_with (JList []) None))
     = Raise AttributeError
  /\ fst (get_status offline (service_with (JList []) None))
     = Raise AttributeError.
Proof. repeat split. Qed.

(** And a base personality written as a list is extended in place by the
    first trait clause. *)
Example list_base_personality_grows :
  base_is_list base_as_lines = true
  /\ Py.assoc "base_personality"
       (section_of
          (personality_config
             (self (snd (_get_system_prompt quoted
                           (service_with base_as_lines None)))))
          "personality")
     = Some (JList (JStr "You are Jarvis."
                      :: Py.chars " Your tone should be dry.")).
Proof. split; reflexivity. Qed.

(** Construction with nothing reachable: the built-in configuration and no
    client handle. *)
Example init_offline :
  self (snd (init quoted loads_sample offline "llama3.1:8b"
               "http://localhost:11434" []))
  = self offline_service.
Proof. reflexivity. Qed.


(** ** Further properties of the service *)

Section Further.

Variable repr_str : string -> string.
Variable json_loads : string -> result json.
Variable pydantic_str : json -> option string.
Variable world : environment.

Ltac py_run :=
  cbv beta iota zeta delta
    [bind try_except external external_call lift ret raise logger get_self
     set_client set_personality_config];
  cbn [trace self];
  rewrite ?length_snoc.

(** *** The prompt is built without the outside *)

Lemma quiet_ret (A : Type) (a : A) : quiet (ret a).
Proof. intros s. reflexivity. Qed.

Lemma quiet_lift (A : Type) (r : result A) : quiet (lift r).
Proof. intros s. reflexivity. Qed.

Lemma quiet_bind (A B : Type) (m : Py A) (f : A -> Py B) :
  quiet m -> (forall a, quiet (f a)) -> quiet (bind m f).
Proof.
  intros Hm Hf s. unfold bind. specialize (Hm s).
  destruct (m s) as [[a|e] s1]; cbn in *; [|exact Hm].
  rewrite Hf. exact Hm.
Qed.

Lemma quiet_iadd (system_prompt : json) (clause_ : string) :
  quiet (iadd system_prompt clause_).
Proof. intros s. destruct system_prompt; reflexivity. Qed.

Lemma quiet_append_trait (d : json) (key before after : string)
      (system_prompt : json) :
  quiet (append_trait repr_str d key before after system_prompt).
Proof.
  unfold append_trait.
  apply quiet_bind; [apply quiet_lift|intros v].
  destruct (Py.truthy v); [|apply quiet_ret].
  apply quiet_bind; [apply quiet_lift|intros x]. apply quiet_iadd.
Qed.

Lemma prompt_quiet : quiet (_get_system_prompt repr_str).
Proof.
  unfold _get_system_prompt.
  repeat (apply quiet_bind;
          [first [ intros s; reflexivity
                 | apply quiet_lift
                 | apply quiet_append_trait ]
          | intros ? ]).
  apply quiet_ret.
Qed.

(** X1: whatever the configuration holds, building the system prompt calls
    nothing outside the process and logs nothing, and it leaves the model,
    the endpoint, the client handle and the identity section as they
    were. *)
Theorem prompt_stays_inside (s : pystate) :
  trace (snd (_get_system_prompt repr_str s)) = trace s
  /\ same_identity (self s) (self (snd (_get_system_prompt repr_str s))).
Proof.
  split.
  - apply prompt_quiet.
  - apply (prompt_keeps_identity repr_str s Logic.I).
Qed.

(** *** The one chat call *)

(** The attempt with a client handle: the prompt, then the chat call at
    the moment the prompt is ready, then the content of the reply. *)
Lemma ai_attempt_cases (message : string) (s : pystate) (c : Client) :
  client (self s) = Some c ->
  exists r s0,
    _get_system_prompt repr_str s = (r, s0)
    /\ trace s0 = trace s
    /\ same_identity (self s) (self s0)
    /\ ai_attempt repr_str world message s
       = match r with
         | Raise e => (Raise e, s0)
         | Ok prompt =>
             (match client_chat world (length (trace s)) c (model (self s))
                      (JList [ JDict [("role", JStr "system");
                                      ("content", prompt)];
                               JDict [("role", JStr "user");
                                      ("content", JStr message)] ]) with
              | Raise e => Raise e
              | Ok reply =>
                  match Py.getitem reply "message" with
                  | Raise e => Raise e
                  | Ok msg => Py.getitem msg "content"
                  end
              end,
              {| self := self s0;
                 trace := trace s ++ [chat_call c (self s) prompt message] |})
         end.
Proof.
  intros Hc. pose proof (prompt_quiet s) as Ht.
  pose proof (prompt_keeps_identity repr_str s Logic.I) as [Hk _].
  unfold ai_attempt. py_run.
  destruct (_get_system_prompt repr_str s) as [r s0]. cbn [snd] in Ht, Hk.
  exists r, s0. split; [reflexivity|]. split; [exact Ht|].
  split; [exact Hk|]. destruct Hk as (Hm & _ & Hcl & _).
  destruct r as [prompt|e]; [|reflexivity].
  rewrite Hcl, Hc. py_run. rewrite Ht, Hm. unfold chat_call.
  destruct (client_chat world _ c _ _) as [reply|e]; [|reflexivity].
  destruct (Py.getitem reply "message") as [msg|e]; [|reflexivity].
  destruct (Py.getitem msg "content"); reflexivity.
Qed.

(** X2: the calls of one [generate_response], for a configuration whose
    identity section can be read.  Without a client handle it only reads
    the clock.  With one it first builds the system prompt.  If that
    raises, no chat is sent and the exception is logged as "Ollama
    generation error".  Otherwise exactly one chat is sent, for the
    configured model, with the built prompt as the system message and then
    the message of the user; "Ollama generation error" is logged exactly
    when that call raises or its reply has no message content.  The clock
    is read last, and availability is never probed. *)
Theorem generate_response_calls (message : string) (s : pystate) :
  identity_readable (personality_config (self s)) = true ->
  exists events,
    trace (snd (generate_response repr_str world message s))
    = (trace s ++ events)%list
    /\ match client (self s) with
       | None => events = [EvNow]
       | Some c =>
           match fst (_get_system_prompt repr_str s) with
           | Raise e =>
               events = [EvLog ERROR "Ollama generation error: " (Some e);
                         EvNow]
           | Ok prompt =>
               match reply_content
                       (client_chat world (length (trace s)) c
                          (model (self s)) (chat_messages prompt message))
               with
               | Ok _ =>
                   events = [EvChat c (model (self s))
                               (chat_messages prompt message);
                             EvNow]
               | Raise e =>
                   events = [EvChat c (model (self s))
                               (chat_messages prompt message);
                             EvLog ERROR "Ollama generation error: " (Some e);
                             EvNow]
               end
           end
       end.
Proof.
  intros Hid. rewrite (generate_response_cases repr_str world message s Hid).
  cbv zeta. destruct (client (self s)) as [c|] eqn:Hc.
  - destruct (ai_attempt_cases message s c Hc)
      as (r & s0 & Hp & Ht & _ & Hat).
    rewrite Hat, Hp. cbn [fst]. destruct r as [prompt|e].
    + unfold reply_content, chat_messages, chat_call.
      destruct (match client_chat world _ c _ _ with
                | Ok _ => _ | Raise e => Raise e end) as [content|e].
      * eexists. split; [|reflexivity].
        destruct (Py.truthy content); cbn; rewrite <- app_assoc; reflexivity.
      * eexists. split; [|reflexivity].
        cbn. rewrite <- !app_assoc. reflexivity.
    + eexists. split; [|reflexivity].
      cbn. rewrite Ht, <- app_assoc. reflexivity.
  - exists [EvNow]. split; reflexivity.
Qed.

(** X3: the mode of the result tells what happened in this very call.  It
    is "ai" exactly when there is a client handle and the attempt returned
    a content that Python takes for true; the response is then that
    content, untouched, and the model the configured one.  Otherwise it is
    "echo" with the model "fallback". *)
Theorem mode_tells_the_outcome (message : string) (s : pystate) :
  identity_readable (personality_config (self s)) = true ->
  exists entries s',
    generate_response repr_str world message s = (Ok (JDict entries), s')
    /\ ((Py.assoc "mode" entries = Some (JStr "ai")
         /\ exists c content s1,
              client (self s) = Some c
              /\ ai_attempt repr_str world message s = (Ok content, s1)
              /\ Py.truthy content = true
              /\ Py.assoc "response" entries = Some content
              /\ Py.assoc "model" entries = Some (JStr (model (self s))))
        \/ (Py.assoc "mode" entries = Some (JStr "echo")
            /\ Py.assoc "model" entries = Some (JStr "fallback")
            /\ (client (self s) = None
                \/ (exists e s1,
                      ai_attempt repr_str world message s = (Raise e, s1))
                \/ (exists content s1,
                      ai_attempt repr_str world message s = (Ok content, s1)
                      /\ Py.truthy content = false)))).
Proof.
  intros Hid. rewrite (generate_response_cases repr_str world message s Hid).
  cbv zeta. destruct (client (self s)) as [c|].
  - destruct (ai_attempt repr_str world message s) as [[content|e] s1].
    + destruct (Py.truthy content) eqn:Ht; eexists; eexists;
        (split; [reflexivity|]).
      * left. split; [reflexivity|]. exists c, content, s1. auto.
      * right. split; [reflexivity|]. split; [reflexivity|]. eauto 6.
    + eexists; eexists. split; [reflexivity|]. right.
      split; [reflexivity|]. split; [reflexivity|]. eauto 6.
  - eexists; eexists. split; [reflexivity|]. right.
    split; [reflexivity|]. split; [reflexivity|]. auto.
Qed.

(** *** The names of the installed models *)

Lemma map_result_names (items names : list json) :
  Forall2 (fun item name => Py.getitem item "name" = Ok name) items names ->
  Py.map_result (fun m => Py.getitem m "name") items = Ok names.
Proof.
  induction 1 as [|item name items names Hitem _ IH]; cbn.
  - reflexivity.
  - rewrite Hitem, IH. reflexivity.
Qed.

Lemma map_result_fails (items : list json) (item : json) (e : exn) :
  In item items ->
  Py.getitem item "name" = Raise e ->
  exists e', Py.map_result (fun m => Py.getitem m "name") items = Raise e'.
Proof.
  intros Hin Hitem. induction items as [|x items IH]; [destruct Hin|].
  cbn. destruct Hin as [->|Hin].
  - rewrite Hitem. eauto.
  - destruct (Py.getitem x "name"); [|eauto].
    destruct (IH Hin) as [e' ->]. eauto.
Qed.

(** X4: the enumeration of [get_status] on the reply of the client.  A
    reply without "models" gives the empty list.  A list of models that
    all have a "name" gives those names in the order of the reply.  One
    model without a "name" makes the whole enumeration fail, whatever the
    others hold.  A reply that is not a mapping (a list, a text, a number,
    a boolean, null) fails with AttributeError. *)
Theorem model_names_all_or_nothing (reply : list (string * json)) :
  (Py.assoc "models" reply = None -> model_names (JDict reply) = Ok [])
  /\ (forall items names,
        Py.assoc "models" reply = Some (JList items) ->
        Forall2 (fun item name => Py.getitem item "name" = Ok name)
                items names ->
        model_names (JDict reply) = Ok names)
  /\ (forall items item e,
        Py.assoc "models" reply = Some (JList items) ->
        In item items ->
        Py.getitem item "name" = Raise e ->
        exists e', model_names (JDict reply) = Raise e')
  /\ (forall other : json,
        (forall entries, other <> JDict entries) ->
        model_names other = Raise AttributeError).
Proof.
  unfold model_names, Py.get. split; [|split; [|split]].
  - intros ->. reflexivity.
  - intros items names -> H. cbn. apply map_result_names. exact H.
  - intros items item e -> Hin H. cbn.
    apply map_result_fails with (item := item) (e := e); assumption.
  - intros other Hother. destruct other; try reflexivity.
    exfalso. exact (Hother entries eq_refl).
Qed.

(** *** Every probe is live *)

(** X5: [is_available] keeps no memory of its last answer.  Called twice on
    a service with a client handle it asks the client twice, and the second
    answer is true exactly when the second call returns, whatever the first
    answer was. *)
Theorem is_available_asks_again (s : pystate) (c : Client) :
  client (self s) = Some c ->
  exists b1 s1 b2 s2 logged1 logged2,
    is_available world s = (Ok b1, s1)
    /\ is_available world s1 = (Ok b2, s2)
    /\ trace s1 = (trace s ++ EvList c :: logged1)%list
    /\ trace s2 = (trace s1 ++ EvList c :: logged2)%list
    /\ (b2 = true <->
        exists listed, client_list world (length (trace s1)) c = Ok listed).
Proof.
  intros Hc.
  assert (Hsecond : forall s1 : pystate,
    client (self s1) = Some c ->
    exists b2 s2 logged2,
      is_available world s1 = (Ok b2, s2)
      /\ trace s2 = (trace s1 ++ EvList c :: logged2)%list
      /\ (b2 = true <->
          exists listed, client_list world (length (trace s1)) c = Ok listed)).
  { intros s1 H1. rewrite (is_available_cases world s1), H1.
    destruct (client_list world (length (trace s1)) c) as [l2|e2].
    - exists true. eexists. exists []. split; [reflexivity|].
      split; [reflexivity|]. split; eauto.
    - exists false. eexists. eexists. split; [reflexivity|].
      split; [cbn; rewrite <- app_assoc; reflexivity|].
      split; [discriminate|intros [l Hl]; discriminate]. }
  rewrite (is_available_cases world s), Hc.
  destruct (client_list world (length (trace s)) c) as [l1|e1].
  - destruct (Hsecond {| self := self s; trace := trace s ++ [EvList c] |} Hc)
      as (b2 & s2 & logged2 & H2 & Ht2 & Hb2).
    exists true. eexists. exists b2, s2, [], logged2.
    split; [reflexivity|]. split; [exact H2|]. split; [reflexivity|].
    split; [exact Ht2|exact Hb2].
  - destruct (Hsecond
                {| self := self s;
                   trace := (trace s ++ [EvList c])
                              ++ [EvLog WARNING "AI service not available: "
                                    (Some e1)] |} Hc)
      as (b2 & s2 & logged2 & H2 & Ht2 & Hb2).
    exists false. eexists. exists b2, s2. eexists. exists logged2.
    split; [reflexivity|]. split; [exact H2|].
    split; [cbn; rewrite <- app_assoc; reflexivity|].
    split; [exact Ht2|exact Hb2].
Qed.

(** *** The loader when a file can be read *)

(** X6: when the first candidate that exists can be read as JSON, the
    loader returns its content as it is, whatever it is, says in the log
    which file it took, opens no other file and does not look at the
    candidates that come after it. *)
Theorem loader_takes_first_readable
        (s : pystate) (p : string) (t : nat) (later : list string)
        (cfg : json) :
  first_existing world (length (trace s)) candidates = Some (p, t, later) ->
  read_config json_loads world t p = Ok cfg ->
  exists s' events,
    _load_personality_config json_loads world s = (Ok cfg, s')
    /\ trace s' = (trace s ++ events)%list
    /\ In (EvLog INFO ("Loaded personality config from " ++ p) None) events
    /\ (forall q, In (EvOpen q) events -> q = p)
    /\ forall q, In q later ->
                 ~ In (EvExists q) events /\ ~ In (EvOpen q) events.
Proof.
  intros E R.
  pose proof (loader_steps json_loads world s) as H. cbv zeta in H.
  rewrite E in H. destruct H as (earlier & s' & Hc & H & _).
  rewrite R in H. destruct H as [Hrun Htrace].
  exists s'. eexists. split; [exact Hrun|]. split; [exact Htrace|].
  assert (Hopen : forall q,
    In (EvOpen q)
       (map EvExists (earlier ++ [p])
          ++ [EvOpen p;
              EvLog INFO ("Loaded personality config from " ++ p) None]) ->
    q = p).
  { intros q Hin. apply in_app_or in Hin. destruct Hin as [Hin|Hin].
    - apply in_map_iff in Hin. destruct Hin as (x & Hx & _). discriminate.
    - cbn in Hin. destruct Hin as [Hin|[Hin|[]]]; [|discriminate].
      inversion Hin. reflexivity. }
  split; [|split; [exact Hopen|]].
  - apply in_or_app. right. right. left. reflexivity.
  - intros q Hq.
    assert (Hnot : ~ In q (earlier ++ [p])).
    { apply later_not_earlier with (later := later); [|exact Hq].
      rewrite <- Hc. apply candidates_distinct. }
    split; intros Hin.
    + apply in_app_or in Hin. destruct Hin as [Hin|Hin].
      * apply in_map_iff in Hin. destruct Hin as (x & Hx & Hin).
        inversion Hx; subst. contradiction.
      * cbn in Hin. destruct Hin as [Hin|[Hin|[]]]; discriminate.
    + apply Hopen in Hin. subst q. apply Hnot. apply in_or_app.
      right. left. reflexivity.
Qed.

(** *** The calls of a status *)

(** X7: the calls of one [get_status].  Without a client handle it calls
    nothing.  With one it asks the client for its list once, and a second
    time for the names only when the first call returned; a failed first
    call is logged, a failed second call is not. *)
Theorem get_status_calls (s : pystate) :
  identity_readable (personality_config (self s)) = true ->
  exists events,
    trace (snd (get_status world s)) = (trace s ++ events)%list
    /\ match client (self s) with
       | None => events = []
       | Some c =>
           match client_list world (length (trace s)) c with
           | Ok _ => events = [EvList c; EvList c]
           | Raise e =>
               events = [EvList c;
                         EvLog WARNING "AI service not available: " (Some e)]
           end
       end.
Proof.
  intros Hid.
  destruct (get_status_cases world s Hid) as (b & s1 & Hav & _ & Hst).
  rewrite Hst. rewrite (is_available_cases world s) in Hav.
  destruct (client (self s)) as [c|].
  - destruct (client_list world (length (trace s)) c) as [listed|e];
      inversion Hav; subst; cbn; eexists;
      (split; [rewrite <- app_assoc; reflexivity|reflexivity]).
  - inversion Hav; subst. exists []. rewrite app_nil_r.
    split; reflexivity.
Qed.

(** *** Construction *)

(** [_initialize_client] never raises and never touches the model, the
    endpoint or the configuration.  It leaves the handle for the endpoint
    when the tags answer with 200, the client can be built and the name in
    the configuration can be looked up for the log line; an answer other
    than 200 leaves the handle as it was; every exception, the one of that
    lookup too, leaves no handle. *)
Lemma initialize_client_steps (s : pystate) :
  let t := length (trace s) in
  let url := (ollama_url (self s) ++ "/api/tags")%string in
  exists s',
    _initialize_client repr_str world s = (Ok tt, s')
    /\ model (self s') = model (self s)
    /\ ollama_url (self s') = ollama_url (self s)
    /\ personality_config (self s') = personality_config (self s)
    /\ (handle_obtained world t (self s) = true ->
        client (self s') = Some {| host := ollama_url (self s) |})
    /\ (forall status_code,
          httpx_get world t url = Ok status_code ->
          status_code <> 200%Z ->
          client (self s') = client (self s))
    /\ (handle_obtained world t (self s) = false ->
        httpx_get world t url = Ok 200%Z \/
        (exists e, httpx_get world t url = Raise e) ->
        client (self s') = None).
Proof.
  cbv zeta. unfold handle_obtained, _initialize_client. py_run.
  destruct (httpx_get world (length (trace s)) _) as [status_code|e].
  - destruct (Z.eqb status_code 200) eqn:E200; py_run.
    + apply Z.eqb_eq in E200. subst status_code.
      destruct (ollama_Client world _ _) as [e|]; py_run.
      * eexists. split; [reflexivity|]. cbn.
        repeat (split; [reflexivity|]).
        split; [discriminate|]. split; [|reflexivity].
        intros code Hcode Hne. inversion Hcode. congruence.
      * destruct (identity_readable (personality_config (self s))) eqn:Hid.
        -- match goal with
           | |- context [identity_field "name" "Unknown" ?st] =>
               rewrite (identity_field_readable "name" "Unknown" st Hid)
           end.
           py_run. eexists. split; [reflexivity|]. cbn.
           repeat (split; [reflexivity|]).
           split; [|discriminate].
           intros code Hcode Hne. inversion Hcode. congruence.
        -- assert (Hraise : forall st : pystate,
             personality_config (self st) = personality_config (self s) ->
             exists e, identity_field "name" "Unknown" st = (Raise e, st)).
           { intros st Hst. unfold identity_field. py_run. rewrite Hst.
             unfold identity_readable, identity_section in Hid.
             destruct (Py.get (personality_config (self s)) "identity"
                         (JDict [])) as [[]|e]; try discriminate;
               eexists; reflexivity. }
           match goal with
           | |- context [identity_field "name" "Unknown" ?st] =>
               destruct (Hraise st eq_refl) as [e He]; rewrite He
           end.
           py_run. eexists. split; [reflexivity|]. cbn.
           repeat (split; [reflexivity|]).
           split; [discriminate|]. split; [|reflexivity].
           intros code Hcode Hne. inversion Hcode. congruence.
    + eexists. split; [reflexivity|]. cbn.
      repeat (split; [reflexivity|]).
      split; [discriminate|]. split; [reflexivity|].
      intros _ [H|[e H]]; [|discriminate].
      inversion H. subst. discriminate.
  - eexists. split; [reflexivity|]. cbn.
    repeat (split; [reflexivity|]).
    split; [discriminate|]. split; [discriminate|reflexivity].
Qed.

Lemma loader_returns (s : pystate) :
  exists cfg s1,
    _load_personality_config json_loads world s = (Ok cfg, s1)
    /\ self s1 = self s.
Proof.
  pose proof (loader_steps json_loads world s) as H. cbv zeta in H.
  destruct (first_existing world _ candidates) as [[[p t] later]|].
  - destruct H as (earlier & s1 & _ & H & Hself).
    destruct (read_config json_loads world t p); destruct H as [H _]; eauto.
  - destruct H as (s1 & H & Hself & _). eauto.
Qed.

(** [__init__]: the loader, then [_initialize_client] on the service that
    holds what the loader returned. *)
Lemma init_runs (model_ url : string) (before : list event) :
  exists cfg s1,
    _load_personality_config json_loads world
      {| self := {| model := model_; ollama_url := url;
                    client := None; personality_config := JNull |};
         trace := before |} = (Ok cfg, s1)
    /\ init repr_str json_loads world model_ url before
       = _initialize_client repr_str world
           {| self := {| model := model_; ollama_url := url;
                         client := None; personality_config := cfg |};
              trace := trace s1 |}.
Proof.
  destruct (loader_returns
              {| self := {| model := model_; ollama_url := url;
                            client := None; personality_config := JNull |};
                 trace := before |}) as (cfg & s1 & Hload & Hself).
  exists cfg, s1. split; [exact Hload|].
  unfold init. py_run. rewrite Hload. py_run. rewrite Hself. reflexivity.
Qed.

(** X8: constructing the service never raises.  The service keeps the
    model and the endpoint it was given and the configuration the loader
    returned.  It has a client handle, for that endpoint, exactly when the
    tags of the endpoint answer with 200, the client can be built and the
    name in the configuration can be looked up for the log line; in
    particular a configuration whose identity cannot be read leaves the
    service without a handle even when Ollama answers. *)
Theorem construction_outcome (model_ url : string) (before : list event) :
  exists cfg s1 s',
    _load_personality_config json_loads world
      {| self := {| model := model_; ollama_url := url;
                    client := None; personality_config := JNull |};
         trace := before |} = (Ok cfg, s1)
    /\ init repr_str json_loads world model_ url before = (Ok tt, s')
    /\ model (self s') = model_
    /\ ollama_url (self s') = url
    /\ personality_config (self s') = cfg
    /\ client (self s')
       = (if handle_obtained world (length (trace s1))
               {| model := model_; ollama_url := url;
                  client := None; personality_config := cfg |}
          then Some {| host := url |} else None)
    /\ (identity_readable cfg = false -> client (self s') = None).
Proof.
  destruct (init_runs model_ url before) as (cfg & s1 & Hload & Hinit).
  exists cfg, s1.
  destruct (initialize_client_steps
              {| self := {| model := model_; ollama_url := url;
                            client := None; personality_config := cfg |};
                 trace := trace s1 |})
    as (s' & Hrun & Hm & Hu & Hc & Hsome & Hkeep & Hnone).
  cbn [self trace model ollama_url personality_config client] in *.
  exists s'. split; [exact Hload|]. split; [rewrite Hinit; exact Hrun|].
  split; [exact Hm|]. split; [exact Hu|]. split; [exact Hc|].
  assert (Hcl : client (self s')
                = if handle_obtained world (length (trace s1))
                       {| model := model_; ollama_url := url;
                          client := None; personality_config := cfg |}
                  then Some {| host := url |} else None).
  { destruct (handle_obtained world (length (trace s1)) _) eqn:Hh.
    - apply Hsome. reflexivity.
    - destruct (httpx_get world (length (trace s1)) (url ++ "/api/tags"))
        as [status_code|e] eqn:Hget.
      + destruct (Z.eq_dec status_code 200) as [->|Hne].
        * apply Hnone; auto.
        * rewrite (Hkeep status_code eq_refl Hne). reflexivity.
      + apply Hnone; eauto. }
  split; [exact Hcl|].
  intros Hid. rewrite Hcl. unfold handle_obtained.
  cbn [ollama_url personality_config]. rewrite Hid.
  destruct (httpx_get world _ _); [|reflexivity].
  rewrite andb_false_r. reflexivity.
Qed.

(** *** The handlers and the service object *)

Lemma requests_keep_identity :
  stable anything same_identity (is_available world)
  /\ stable anything same_identity (get_status world)
  /\ forall message,
       stable anything same_identity
              (generate_response repr_str world message).
Proof.
  split; [|split].
  - apply stable_is_available;
      [apply same_identity_refl|apply same_identity_trans].
  - apply stable_get_status;
      [apply same_identity_refl|apply same_identity_trans].
  - intros message. apply stable_generate_response;
      [apply same_identity_refl|apply same_identity_trans
      |apply prompt_keeps_identity].
Qed.

Ltac keep_step :=
  first [ apply stable_ret, same_identity_refl
        | apply stable_lift, same_identity_refl
        | apply stable_logger, same_identity_refl
        | apply stable_now, same_identity_refl
        | apply (proj1 requests_keep_identity)
        | apply (proj1 (proj2 requests_keep_identity))
        | apply (proj2 (proj2 requests_keep_identity)) ].

Ltac keep_all :=
  first [ keep_step
        | apply stable_bind; try apply same_identity_trans;
          [keep_all|intros ?; keep_all] ].

Lemma root_keeps_identity : stable anything same_identity Main.root.
Proof. unfold Main.root. keep_all. Qed.

Lemma health_check_keeps_identity :
  stable anything same_identity (Main.health_check world).
Proof. unfold Main.health_check. keep_all. Qed.

Lemma chat_keeps_identity (content : string) :
  stable anything same_identity
         (Main.chat repr_str pydantic_str world content).
Proof. unfold Main.chat. keep_all. Qed.

Lemma status_keeps_identity :
  stable anything same_identity (Main.get_status world).
Proof. unfold Main.get_status. keep_all. Qed.

Lemma ai_status_keeps_identity :
  stable anything same_identity (Main.ai_status world).
Proof. unfold Main.ai_status. keep_all. Qed.

Lemma test_ai_keeps_identity :
  stable anything same_identity (Main.test_ai repr_str world).
Proof.
  unfold Main.test_ai.
  apply stable_bind; try apply same_identity_trans; [keep_step|].
  intros [|]; keep_all.
Qed.

Lemma well_served_kept (model_ url : string) (a b : AIService) :
  same_identity a b -> well_served model_ url a -> well_served model_ url b.
Proof.
  intros (Hm & Hu & Hc & Hi) (Wm & Wu & Wc).
  split; [congruence|]. split; [congruence|].
  destruct Wc as [Wc|[Wc Wr]]; [left; congruence|right].
  split; [congruence|]. unfold identity_readable in *. rewrite Hi. exact Wr.
Qed.

Lemma construction_well_served (model_ url : string) (before : list event) :
  well_served model_ url
    (self (snd (init repr_str json_loads world model_ url before))).
Proof.
  destruct (init_runs model_ url before) as (cfg & s1 & _ & Hinit).
  rewrite Hinit.
  destruct (initialize_client_steps
              {| self := {| model := model_; ollama_url := url;
                            client := None; personality_config := cfg |};
                 trace := trace s1 |})
    as (s' & Hrun & Hm & Hu & Hc & Hsome & Hkeep & Hnone).
  cbn [self trace model ollama_url personality_config client] in *.
  rewrite Hrun. cbn [snd]. split; [exact Hm|]. split; [exact Hu|].
  destruct (handle_obtained world (length (trace s1)) _) eqn:Hh.
  - right. split; [apply Hsome; reflexivity|].
    unfold handle_obtained in Hh. cbn [ollama_url personality_config] in Hh.
    destruct (httpx_get world _ _); [|discriminate].
    apply andb_prop in Hh. destruct Hh as [_ Hid]. rewrite Hc. exact Hid.
  - left.
    destruct (httpx_get world (length (trace s1)) (url ++ "/api/tags"))
      as [status_code|e] eqn:Hget.
    + destruct (Z.eq_dec status_code 200) as [->|Hne].
      * apply Hnone; auto.
      * rewrite (Hkeep status_code eq_refl Hne). reflexivity.
    + apply Hnone; eauto.
Qed.

Lemma serving_invariant (model_ url : string) (s : pystate) :
  serving repr_str json_loads pydantic_str world model_ url s ->
  well_served model_ url (self s).
Proof.
  induction 1 as [before|s _ IH|s _ IH|s content _ IH|s _ IH|s _ IH|s _ IH].
  - apply construction_well_served.
  - eapply well_served_kept; [|exact IH].
    apply (root_keeps_identity s Logic.I).
  - eapply well_served_kept; [|exact IH].
    apply (health_check_keeps_identity s Logic.I).
  - eapply well_served_kept; [|exact IH].
    apply (chat_keeps_identity content s Logic.I).
  - eapply well_served_kept; [|exact IH].
    apply (status_keeps_identity s Logic.I).
  - eapply well_served_kept; [|exact IH].
    apply (ai_status_keeps_identity s Logic.I).
  - eapply well_served_kept; [|exact IH].
    apply (test_ai_keeps_identity s Logic.I).
Qed.

(** *** The handlers *)

(** With text from the client, every field of a result is text, and the
    response is not empty. *)
Lemma generate_response_text (message : string) (s : pystate) :
  identity_readable (personality_config (self s)) = true ->
  chat_content_is_text world ->
  exists response mode_ model_ personality timestamp s',
    generate_response repr_str world message s
    = (Ok (JDict [("response", JStr response);
                  ("mode", JStr mode_);
                  ("model", JStr model_);
                  ("personality", personality);
                  ("timestamp", JStr timestamp)]), s')
    /\ response <> EmptyString
    /\ (client (self s) = None ->
        response
        = ("Echo from "
             ++ Py.str repr_str
                  (configured (personality_config (self s)) "name"
                     "Assistant")
             ++ ": " ++ message)%string
        /\ mode_ = "echo" /\ model_ = "fallback").
Proof.
  intros Hid Htext.
  rewrite (generate_response_cases repr_str world message s Hid). cbv zeta.
  unfold echo_result, ai_result.
  destruct (client (self s)) as [c|].
  - destruct (ai_attempt repr_str world message s) as [[content|e] s1] eqn:E.
    + destruct (Py.truthy content) eqn:Ht.
      * destruct (attempt_content _ _ _ _ _ _ E)
          as (t & c' & mdl & ms & reply & msg & H1 & H2 & H3).
        destruct (Htext _ _ _ _ _ _ _ H1 H2 H3) as [->|[text ->]];
          [discriminate|].
        do 6 eexists. split; [reflexivity|].
        split; [intros ->; discriminate|discriminate].
      * do 6 eexists. split; [reflexivity|]. split; discriminate.
    + do 6 eexists. split; [reflexivity|]. split; discriminate.
  - do 6 eexists. split; [reflexivity|]. split; [discriminate|auto].
Qed.

(** X10: [POST /api/chat] logs the request, asks [generate_response] once
    and answers with its response, mode, model and timestamp, without the
    personality.  With a validator that accepts text, a configuration
    whose identity can be read and a client that answers with text it
    never raises; the response is never empty, and without a client handle
    it is the echo of the content with the mode "echo" and the model
    "fallback". *)
Theorem chat_answers (content : string) (s : pystate) :
  (forall text, pydantic_str (JStr text) = Some text) ->
  identity_readable (personality_config (self s)) = true ->
  chat_content_is_text world ->
  exists response mode_ model_ personality timestamp s',
    generate_response repr_str world content
      {| self := self s;
         trace := trace s ++ [EvLog INFO ("Chat request: " ++ content) None] |}
    = (Ok (JDict [("response", JStr response);
                  ("mode", JStr mode_);
                  ("model", JStr model_);
                  ("personality", personality);
                  ("timestamp", JStr timestamp)]), s')
    /\ Main.chat repr_str pydantic_str world content s
       = (Ok (JDict [("response", JStr response);
                     ("mode", JStr mode_);
                     ("model", JStr model_);
                     ("timestamp", JStr timestamp)]), s')
    /\ response <> EmptyString
    /\ (client (self s) = None ->
        response
        = ("Echo from "
             ++ Py.str repr_str
                  (configured (personality_config (self s)) "name"
                     "Assistant")
             ++ ": " ++ content)%string
        /\ mode_ = "echo" /\ model_ = "fallback").
Proof.
  intros Hvalid Hid Htext.
  destruct (generate_response_text content
              {| self := self s;
                 trace := trace s
                            ++ [EvLog INFO ("Chat request: " ++ content) None] |}
              Hid Htext)
    as (r & m & d & p & ts & s' & Hgen & Hne & Hecho).
  exists r, m, d, p, ts, s'. split; [exact Hgen|].
  split; [|split; [exact Hne|exact Hecho]].
  unfold Main.chat, Main.ChatResponse. py_run. rewrite Hgen. py_run. cbn.
  rewrite !Hvalid. reflexivity.
Qed.

(** X11: [GET /api/ai/test].  When the probe answers false the handler
    returns the fixed refusal and does nothing more: no chat, no clock.
    When the probe answers true the handler runs [generate_response] on the
    fixed question: whatever result that returns, an AI answer or an echo,
    the handler reports [test_successful] true and carries the result as
    its test response, and when it raises the handler raises the same
    exception.  So with a configuration whose identity can be read, a probe
    that answers and an attempt that raises, the handler reports success
    and carries an echo with the model "fallback". *)
Theorem test_ai_reports_the_probe (s : pystate) :
  (forall s1,
     is_available world s = (Ok false, s1) ->
     Main.test_ai repr_str world s
     = (Ok (JDict [("ai_available", JBool false);
                   ("test_successful", JBool false);
                   ("message",
                    JStr "AI service not available - using fallback mode")]),
        s1))
  /\ (forall s1,
        is_available world s = (Ok true, s1) ->
        Main.test_ai repr_str world s
        = match generate_response repr_str world "Hello, are you working?" s1
          with
          | (Ok result, s') =>
              (Ok (JDict [("ai_available", JBool true);
                          ("test_successful", JBool true);
                          ("test_response", result)]), s')
          | (Raise e, s') => (Raise e, s')
          end)
  /\ (forall c listed e s2,
        identity_readable (personality_config (self s)) = true ->
        client (self s) = Some c ->
        client_list world (length (trace s)) c = Ok listed ->
        ai_attempt repr_str world "Hello, are you working?"
          {| self := self s; trace := trace s ++ [EvList c] |}
        = (Raise e, s2) ->
        exists result s',
          Main.test_ai repr_str world s
          = (Ok (JDict [("ai_available", JBool true);
                        ("test_successful", JBool true);
                        ("test_response", result)]), s')
          /\ Py.getitem result "mode" = Ok (JStr "echo")
          /\ Py.getitem result "model" = Ok (JStr "fallback")).
Proof.
  split; [|split].
  - intros s1 H. unfold Main.test_ai. py_run. rewrite H. reflexivity.
  - intros s1 H. unfold Main.test_ai. py_run. rewrite H. cbv beta iota.
    destruct (generate_response repr_str world _ s1) as [[result|e] s'];
      reflexivity.
  - intros c listed e s2 Hid Hc Hl Hat.
    unfold Main.test_ai. py_run.
    rewrite (is_available_cases world s), Hc, Hl. cbv beta iota.
    rewrite (generate_response_cases repr_str world
               "Hello, are you working?"
               {| self := self s; trace := trace s ++ [EvList c] |} Hid).
    cbv zeta. cbn [self trace]. rewrite Hc, Hat. cbv beta iota.
    eexists; eexists. split; [reflexivity|]. split; reflexivity.
Qed.

(** X12: the status handlers, for a configuration whose identity can be
    read.  None of them raises, whatever the outside does.
    [GET /api/ai/status] is the status of the service; [GET /api/health]
    says "healthy" and carries that status, available or not;
    [GET /api/status] carries it too and its [features.ai_integration] is
    the [ai_available] of that status, which is true exactly when its mode
    is "ai". *)
Theorem status_handlers_report (s : pystate) :
  identity_readable (personality_config (self s)) = true ->
  exists status s1 available timestamp s2,
    get_status world s = (Ok status, s1)
    /\ Main.ai_status world s = (Ok status, s1)
    /\ Main.health_check world s
       = (Ok (JDict [("status", JStr "healthy");
                     ("service", JStr "jarvis-backend");
                     ("version", JStr "1.1.0");
                     ("ai_integration", status);
                     ("timestamp", JStr timestamp)]), s2)
    /\ Main.get_status world s
       = (Ok (JDict [("backend", JStr "running");
                     ("version", JStr "1.1.0");
                     ("ai_service", status);
                     ("features", JDict [
                        ("chat", JBool true);
                        ("ai_integration", JBool available);
                        ("fallback_mode", JBool true);
                        ("health_check", JBool true)])]), s1)
    /\ Py.getitem status "ai_available" = Ok (JBool available)
    /\ (available = true <-> Py.getitem status "mode" = Ok (JStr "ai"))
    /\ (available = false <-> Py.getitem status "mode" = Ok (JStr "echo")).
Proof.
  intros Hid.
  destruct (get_status_cases world s Hid) as (b & s0 & _ & _ & Hst).
  assert (Hshape : exists more s1,
    get_status world s
    = (Ok (JDict (status_fields b (self s) ++ more)), s1)).
  { rewrite Hst. destruct b; [destruct (client (self s))|];
      eexists; eexists; reflexivity. }
  destruct Hshape as (more & s1 & Hget).
  exists (JDict (status_fields b (self s) ++ more)), s1, b.
  eexists; eexists. split; [exact Hget|]. split; [exact Hget|].
  unfold Main.health_check, Main.get_status, now. py_run. rewrite Hget.
  py_run. split; [reflexivity|]. split; [reflexivity|].
  split; [reflexivity|]. cbn.
  destruct b; split; split; try reflexivity; discriminate.
Qed.

(** *** A running process *)

Lemma identity_field_unreadable (field dflt : string) (s : pystate) :
  identity_readable (personality_config (self s)) = false ->
  identity_field field dflt s = (Raise AttributeError, s).
Proof.
  unfold identity_field, identity_readable, identity_section. py_run.
  unfold Py.get.
  destruct (personality_config (self s)) as [| | | | | |kvs];
    try reflexivity.
  destruct (Py.assoc "identity" kvs) as [[]|]; try reflexivity; discriminate.
Qed.

(** X9: in every state of a running process (the service constructed,
    then any requests handled one after the other) the service has the
    model and the endpoint it was constructed with, and if it has a client
    handle the handle is for that endpoint and the identity section of the
    configuration can be read.  So [GET /api/ai/test] never raises, and
    with a client handle neither do the status handlers nor
    [generate_response]. *)
Theorem serving_keeps_service (model_ url : string) (s : pystate) :
  serving repr_str json_loads pydantic_str world model_ url s ->
  well_served model_ url (self s)
  /\ (exists r s', Main.test_ai repr_str world s = (Ok r, s'))
  /\ (client (self s) <> None ->
      (exists r s', Main.health_check world s = (Ok r, s'))
      /\ (exists r s', Main.get_status world s = (Ok r, s'))
      /\ (exists r s', Main.ai_status world s = (Ok r, s'))
      /\ forall message,
           exists r s',
             generate_response repr_str world message s = (Ok r, s')).
Proof.
  intros H. pose proof (serving_invariant model_ url s H) as W.
  split; [exact W|]. destruct W as (_ & _ & Wc).
  assert (Hgen : identity_readable (personality_config (self s)) = true ->
    forall message (st : pystate),
      self st = self s ->
      exists r s', generate_response repr_str world message st = (Ok r, s')).
  { intros Hid message st Hst.
    assert (Hid' : identity_readable (personality_config (self st)) = true)
      by (rewrite Hst; exact Hid).
    rewrite (generate_response_cases repr_str world message st Hid').
    cbv zeta. destruct (client (self st)); [|eauto].
    destruct (ai_attempt repr_str world message st) as [[content|e] s1];
      [destruct (Py.truthy content)|]; eauto. }
  split.
  - unfold Main.test_ai. py_run. rewrite (is_available_cases world s).
    destruct Wc as [Wc|[Wc Hid]]; rewrite Wc; [eauto|].
    destruct (client_list world (length (trace s)) _); [|eauto].
    cbv beta iota.
    match goal with
    | |- context [generate_response repr_str world ?m ?st] =>
        destruct (Hgen Hid m st eq_refl) as (r & s' & Hr); rewrite Hr
    end.
    eauto.
  - intros Hc. destruct Wc as [Wc|[Wc Hid]]; [contradiction|].
    destruct (get_status_cases world s Hid) as (b & s1 & _ & _ & Hst).
    assert (Hget : exists more s2,
      get_status world s
      = (Ok (JDict (status_fields b (self s) ++ more)), s2)).
    { rewrite Hst. destruct b; [destruct (client (self s))|];
        eexists; eexists; reflexivity. }
    destruct Hget as (more & s2 & Hget).
    unfold Main.health_check, Main.get_status, Main.ai_status, now. py_run.
    rewrite Hget. py_run. cbn.
    split; [eauto|]. split; [eauto|]. split; [eauto|].
    intros message. apply (Hgen Hid message s eq_refl).
Qed.

(** X13: the identity section decides whether a request is answered.  When
    it cannot be read (the configuration is no mapping, or its "identity"
    is no mapping), [generate_response] raises AttributeError for every
    message and [get_status] raises it too, whatever the client does; the
    exception is not caught inside the service. *)
Theorem unreadable_identity_always_raises (s : pystate) :
  identity_readable (personality_config (self s)) = false ->
  (forall message,
     exists s', generate_response repr_str world message s
                = (Raise AttributeError, s'))
  /\ exists s', get_status world s = (Raise AttributeError, s').
Proof.
  intros Hid. split.
  - intros message. unfold generate_response, _generate_ai_response, now.
    py_run.
    assert (Hafter : forall s1 : pystate,
      same_identity (self s) (self s1) ->
      forall dflt, identity_field "name" dflt s1 = (Raise AttributeError, s1)).
    { intros s1 (_ & _ & _ & Hi) dflt. apply identity_field_unreadable.
      unfold identity_readable in *. rewrite Hi. exact Hid. }
    destruct (client (self s)) as [c|].
    + pose proof (attempt_keeps_identity repr_str world message s) as K.
      destruct (ai_attempt repr_str world message s) as [[content|e] s1];
        cbn [snd] in K.
      * destruct (Py.truthy content); py_run.
        -- rewrite (Hafter s1 K "AI"). py_run.
           match goal with
           | |- context [identity_field "name" "Assistant" ?st] =>
               rewrite (Hafter st K "Assistant")
           end. eauto.
        -- rewrite (Hafter s1 K "Assistant"). eauto.
      * py_run. change (Py.truthy JNull) with false. py_run.
        match goal with
        | |- context [identity_field "name" "Assistant" ?st] =>
            rewrite (Hafter st K "Assistant")
        end. eauto.
    + rewrite (Hafter s (same_identity_refl (self s)) "Assistant"). eauto.
  - unfold get_status. py_run.
    destruct (is_available_returns world s) as (b & s1 & Hav & Hself).
    rewrite Hav. py_run.
    rewrite (identity_field_unreadable "name" "Unknown" s1)
      by (rewrite Hself; exact Hid).
    eauto.
Qed.

End Further.

(** ** The further properties at work *)

Lemma generate_response_calls_witness :
  identity_readable (personality_config (self styled_service)) = true
  /\ trace (snd (generate_response quoted (online (JStr "Good day."))
                   "Hello" styled_service))
     = [EvChat local_client "llama3.1:8b"
          (chat_messages
             (JStr "You are Jarvis. Your tone should be dry. Approach problems in an analytical way.")
             "Hello");
        EvNow]
  /\ trace (snd (generate_response quoted flaky "Hello" styled_service))
     = [EvChat local_client "llama3.1:8b"
          (chat_messages
             (JStr "You are Jarvis. Your tone should be dry. Approach problems in an analytical way.")
             "Hello");
        EvLog ERROR "Ollama generation error: " (Some (Failure "ReadTimeout"));
        EvNow].
Proof.
  split; [reflexivity|].
  destruct (generate_response_calls quoted (online (JStr "Good day."))
              "Hello" styled_service eq_refl) as (ev1 & Ht1 & He1).
  destruct (generate_response_calls quoted flaky "Hello" styled_service
              eq_refl) as (ev2 & Ht2 & He2).
  split.
  - rewrite Ht1. cbn in He1. rewrite He1. reflexivity.
  - rewrite Ht2. cbn in He2. rewrite He2. reflexivity.
Defined.

Lemma mode_tells_the_outcome_witness :
  identity_readable (personality_config (self nameless_service)) = true
  /\ exists entries s',
       generate_response quoted flaky "Hello" nameless_service
       = (Ok (JDict entries), s')
       /\ ((Py.assoc "mode" entries = Some (JStr "ai")
            /\ exists c content s1,
                 client (self nameless_service) = Some c
                 /\ ai_attempt quoted flaky "Hello" nameless_service
                    = (Ok content, s1)
                 /\ Py.truthy content = true
                 /\ Py.assoc "response" entries = Some content
                 /\ Py.assoc "model" entries
                    = Some (JStr (model (self nameless_service))))
           \/ (Py.assoc "mode" entries = Some (JStr "echo")
               /\ Py.assoc "model" entries = Some (JStr "fallback")
               /\ (client (self nameless_service) = None
                   \/ (exists e s1,
                         ai_attempt quoted flaky "Hello" nameless_service
                         = (Raise e, s1))
                   \/ (exists content s1,
                         ai_attempt quoted flaky "Hello" nameless_service
                         = (Ok content, s1)
                         /\ Py.truthy content = false)))).
Proof.
  split; [reflexivity|].
  exact (mode_tells_the_outcome quoted flaky "Hello" nameless_service eq_refl).
Defined.

Lemma model_names_all_or_nothing_witness :
  model_names
    (JDict [("models",
             JList [JDict [("name", JStr "llama3.1:8b"); ("size", JInt 4)];
                    JDict [("name", JStr "mistral")]])])
  = Ok [JStr "llama3.1:8b"; JStr "mistral"]
  /\ (exists e,
        model_names
          (JDict [("models",
                   JList [JDict [("name", JStr "llama3.1:8b")];
                          JDict [("model", JStr "mistral")]])])
        = Raise e)
  /\ model_names JNull = Raise AttributeError
  /\ model_names (JStr "llama3.1:8b") = Raise AttributeError.
Proof.
  split; [|split; [|split]].
  - apply (proj1 (proj2 (model_names_all_or_nothing
                           [("models",
                             JList [JDict [("name", JStr "llama3.1:8b");
                                           ("size", JInt 4)];
                                    JDict [("name", JStr "mistral")]])]))
             [JDict [("name", JStr "llama3.1:8b"); ("size", JInt 4)];
              JDict [("name", JStr "mistral")]]
             [JStr "llama3.1:8b"; JStr "mistral"] eq_refl).
    repeat constructor.
  - apply (proj1 (proj2 (proj2 (model_names_all_or_nothing
                                  [("models",
                                    JList [JDict [("name", JStr "llama3.1:8b")];
                                           JDict [("model", JStr "mistral")]])])))
             [JDict [("name", JStr "llama3.1:8b")];
              JDict [("model", JStr "mistral")]]
             (JDict [("model", JStr "mistral")]) (KeyError "name") eq_refl).
    + right. left. reflexivity.
    + reflexivity.
  - apply (proj2 (proj2 (proj2 (model_names_all_or_nothing [])))).
    intros entries H. discriminate H.
  - apply (proj2 (proj2 (proj2 (model_names_all_or_nothing [])))).
    intros entries H. discriminate H.
Defined.

Lemma is_available_asks_again_witness :
  client (self nameless_service) = Some local_client
  /\ fst (is_available flaky nameless_service) = Ok true
  /\ fst (is_available flaky (snd (is_available flaky nameless_service)))
     = Ok false
  /\ exists b1 s1 b2 s2 logged1 logged2,
       is_available flaky nameless_service = (Ok b1, s1)
       /\ is_available flaky s1 = (Ok b2, s2)
       /\ trace s1 = EvList local_client :: logged1
       /\ trace s2 = (trace s1 ++ EvList local_client :: logged2)%list
       /\ (b2 = true <->
           exists listed,
             client_list flaky (length (trace s1)) local_client = Ok listed).
Proof.
  split; [reflexivity|]. split; [reflexivity|]. split; [reflexivity|].
  exact (is_available_asks_again flaky nameless_service local_client eq_refl).
Defined.

Lemma loader_takes_first_readable_witness :
  first_existing (root_holds "[]") 0 candidates
  = Some ("../../jarvis_personality.json", 1,
          ["../jarvis_personality.json"; "jarvis_personality.json"])
  /\ read_config loads_sample (root_holds "[]") 1
       "../../jarvis_personality.json" = Ok (JList [])
  /\ exists s' events,
       _load_personality_config loads_sample (root_holds "[]")
         (service_with JNull None)
       = (Ok (JList []), s')
       /\ trace s' = events
       /\ In (EvLog INFO
                "Loaded personality config from ../../jarvis_personality.json"
                None) events
       /\ (forall q, In (EvOpen q) events ->
                     q = "../../jarvis_personality.json")
       /\ forall q,
            In q ["../jarvis_personality.json"; "jarvis_personality.json"] ->
            ~ In (EvExists q) events /\ ~ In (EvOpen q) events.
Proof.
  split; [reflexivity|]. split; [reflexivity|].
  exact (loader_takes_first_readable loads_sample (root_holds "[]")
           (service_with JNull None) _ _ _ _ eq_refl eq_refl).
Defined.

Lemma get_status_calls_witness :
  identity_readable (personality_config (self nameless_service)) = true
  /\ exists events,
       trace (snd (get_status flaky nameless_service)) = events
       /\ events = [EvList local_client; EvList local_client].
Proof.
  split; [reflexivity|].
  exact (get_status_calls flaky nameless_service eq_refl).
Defined.

Lemma serving_keeps_service_witness :
  serving quoted loads_sample strict_str (online (JStr "Good day."))
    "llama3.1:8b" "http://localhost:11434"
    (snd (Main.chat quoted strict_str (online (JStr "Good day.")) "Hello"
            (snd (init quoted loads_sample (online (JStr "Good day."))
                    "llama3.1:8b" "http://localhost:11434" []))))
  /\ well_served "llama3.1:8b" "http://localhost:11434"
       (self
          (snd (Main.chat quoted strict_str (online (JStr "Good day."))
                  "Hello"
                  (snd (init quoted loads_sample (online (JStr "Good day."))
                          "llama3.1:8b" "http://localhost:11434" []))))).
Proof.
  assert (H : serving quoted loads_sample strict_str
                (online (JStr "Good day."))
                "llama3.1:8b" "http://localhost:11434"
                (snd (Main.chat quoted strict_str (online (JStr "Good day."))
                        "Hello"
                        (snd (init quoted loads_sample
                                (online (JStr "Good day."))
                                "llama3.1:8b" "http://localhost:11434" []))))).
  { apply serving_chat. apply serving_constructed. }
  split; [exact H|].
  exact (proj1 (serving_keeps_service quoted loads_sample strict_str
                  (online (JStr "Good day."))
                  "llama3.1:8b" "http://localhost:11434" _ H)).
Defined.

Lemma chat_answers_witness :
  (forall text, strict_str (JStr text) = Some text)
  /\ identity_readable (personality_config (self offline_service)) = true
  /\ chat_content_is_text (online (JStr "Good day."))
  /\ exists response mode_ model_ personality timestamp s',
       generate_response quoted (online (JStr "Good day.")) "Hello"
         {| self := self offline_service;
            trace := [EvLog INFO "Chat request: Hello" None] |}
       = (Ok (JDict [("response", JStr response);
                     ("mode", JStr mode_);
                     ("model", JStr model_);
                     ("personality", personality);
                     ("timestamp", JStr timestamp)]), s')
       /\ Main.chat quoted strict_str (online (JStr "Good day.")) "Hello"
            offline_service
          = (Ok (JDict [("response", JStr response);
                        ("mode", JStr mode_);
                        ("model", JStr model_);
                        ("timestamp", JStr timestamp)]), s')
       /\ response <> EmptyString
       /\ (client (self offline_service) = None ->
           response = "Echo from Jarvis: Hello"
           /\ mode_ = "echo" /\ model_ = "fallback").
Proof.
  split; [reflexivity|]. split; [reflexivity|].
  split; [apply online_content_is_text|].
  exact (chat_answers quoted strict_str (online (JStr "Good day.")) "Hello"
           offline_service (fun text => eq_refl) eq_refl
           (online_content_is_text "Good day.")).
Defined.

Lemma test_ai_reports_the_probe_witness :
  (exists result s',
     Main.test_ai quoted flaky nameless_service
     = (Ok (JDict [("ai_available", JBool true);
                   ("test_successful", JBool true);
                   ("test_response", result)]), s')
     /\ Py.getitem result "mode" = Ok (JStr "echo")
     /\ Py.getitem result "model" = Ok (JStr "fallback"))
  /\ Main.test_ai quoted offline offline_service
     = (Ok (JDict [("ai_available", JBool false);
                   ("test_successful", JBool false);
                   ("message",
                    JStr "AI service not available - using fallback mode")]),
        offline_service)
  /\ fst (Main.test_ai quoted (online (JStr "Good day."))
            (service_with (JDict [("identity", JNull)]) (Some local_client)))
     = Raise AttributeError.
Proof.
  split; [|split].
  - exact (proj2 (proj2 (test_ai_reports_the_probe quoted flaky
                           nameless_service))
             local_client (JDict []) (Failure "ReadTimeout") _
             eq_refl eq_refl eq_refl eq_refl).
  - exact (proj1 (test_ai_reports_the_probe quoted offline offline_service)
             offline_service eq_refl).
  - rewrite (proj1 (proj2 (test_ai_reports_the_probe quoted
                             (online (JStr "Good day."))
                             (service_with (JDict [("identity", JNull)])
                                (Some local_client))))
               _ eq_refl).
    reflexivity.
Defined.

Lemma status_handlers_report_witness :
  identity_readable (personality_config (self nameless_service)) = true
  /\ exists status s1 available timestamp s2,
       get_status flaky nameless_service = (Ok status, s1)
       /\ Main.ai_status flaky nameless_service = (Ok status, s1)
       /\ Main.health_check flaky nameless_service
          = (Ok (JDict [("status", JStr "healthy");
                        ("service", JStr "jarvis-backend");
                        ("version", JStr "1.1.0");
                        ("ai_integration", status);
                        ("timestamp", JStr timestamp)]), s2)
       /\ Main.get_status flaky nameless_service
          = (Ok (JDict [("backend", JStr "running");
                        ("version", JStr "1.1.0");
                        ("ai_service", status);
                        ("features", JDict [
                           ("chat", JBool true);
                           ("ai_integration", JBool available);
                           ("fallback_mode", JBool true);
                           ("health_check", JBool true)])]), s1)
       /\ Py.getitem status "ai_available" = Ok (JBool available)
       /\ (available = true <-> Py.getitem status "mode" = Ok (JStr "ai"))
       /\ (available = false <-> Py.getitem status "mode" = Ok (JStr "echo")).
Proof.
  split; [reflexivity|].
  exact (status_handlers_report flaky nameless_service eq_refl).
Defined.

Lemma unreadable_identity_always_raises_witness :
  identity_readable (JDict [("identity", JStr "Jarvis")]) = false
  /\ (forall message,
        exists s',
          generate_response quoted (online (JStr "Good day.")) message
            (service_with (JDict [("identity", JStr "Jarvis")])
               (Some local_client))
          = (Raise AttributeError, s'))
  /\ exists s',
       get_status (online (JStr "Good day."))
         (service_with (JDict [("identity", JStr "Jarvis")])
            (Some local_client))
       = (Raise AttributeError, s').
Proof.
  split; [reflexivity|].
  exact (unreadable_identity_always_raises quoted (online (JStr "Good day."))
           (service_with (JDict [("identity", JStr "Jarvis")])
              (Some local_client)) eq_refl).
Defined.


(** ** Where the service does not keep its contract *)

(** The loader hands on whatever parses.  A configuration file that holds
    [[]] is valid JSON; the service constructed from it has no client
    handle, and its name lookups, which the echo branch and the status make
    outside any [try], raise. *)

(** C1: with no client handle [generate_response] should return the echo
    result for every message.  On the service constructed from a
    configuration file holding [[]] it has no client handle and raises
    AttributeError for every message instead. *)
Theorem echo_fallback_raises :
  personality_config (self (constructed loads_sample (root_holds "[]")))
  = JList []
  /\ client (self (constructed loads_sample (root_holds "[]"))) = None
  /\ forall message,
       fst (generate_response quoted (root_holds "[]") message
              (constructed loads_sample (root_holds "[]")))
       = Raise AttributeError.
Proof.
  split; [reflexivity|]. split; [reflexivity|].
  intros message. reflexivity.
Qed.

(** C6: [get_status] should never raise, for any service state.  On the
    service constructed from a configuration file holding [[]] it raises
    AttributeError, and no status is returned. *)
Theorem get_status_raises :
  fst (get_status (root_holds "[]")
         (constructed loads_sample (root_holds "[]")))
  = Raise AttributeError
  /\ forall status s',
       get_status (root_holds "[]")
         (constructed loads_sample (root_holds "[]"))
       <> (Ok status, s').
Proof.
  split; [reflexivity|].
  intros status s' H. apply (f_equal fst) in H. discriminate H.
Qed.

(** C8: [generate_response] should return a result with a mode and a
    response that is not empty, for every message.  On the service
    constructed from a configuration file holding [[]] it returns no result
    for any message, the empty one included. *)
Theorem no_response_on_unvalidated_config :
  forall message result s',
    generate_response quoted (root_holds "[]") message
      (constructed loads_sample (root_holds "[]"))
    <> (Ok result, s').
Proof.
  intros message result s' H. apply (f_equal fst) in H. discriminate H.
Qed.

(** C9: no request should change the configuration.  On the service
    constructed from a configuration file that writes its base personality
    as a list and sets a tone, with Ollama answering, [generate_response]
    returns its AI result and leaves the stored list longer by the
    characters of the tone clause. *)
Theorem generate_response_rewrites_the_configuration :
  personality_config (self (constructed loads_lines lines_world))
  = base_as_lines
  /\ client (self (constructed loads_lines lines_world)) = Some local_client
  /\ Py.assoc "mode"
       (match fst (generate_response quoted lines_world "Hello"
                     (constructed loads_lines lines_world)) with
        | Ok (JDict entries) => entries
        | _ => []
        end)
     = Some (JStr "ai")
  /\ Py.assoc "base_personality"
       (section_of
          (personality_config
             (self (snd (generate_response quoted lines_world "Hello"
                           (constructed loads_lines lines_world)))))
          "personality")
     = Some (JList (JStr "You are Jarvis."
                      :: Py.chars " Your tone should be dry."))
  /\ self (snd (generate_response quoted lines_world "Hello"
                  (constructed loads_lines lines_world)))
     <> self (constructed loads_lines lines_world).
Proof.
  split; [reflexivity|]. split; [reflexivity|]. split; [reflexivity|].
  split; [reflexivity|].
  intros H. apply (f_equal personality_config) in H.
  vm_compute in H. discriminate H.
Qed.
